(** * AI Contract Auditor: data model, review front end and audit core

    The development follows the repository layout:
    - [types/contract.ts]: the records exchanged with the API;
    - [components/AuditForm.tsx], [pages/ContractDetail.tsx],
      [pages/Dashboard.tsx], [services/api.ts]: the review front end;
    - the audit core (extraction fallback, rule engine, lifecycle and
      correction handling) that serves the API. *)

From Stdlib Require Import ZArith QArith Ascii String List Bool Lia.
From Stdlib Require Import DecimalString DecimalPos.
From stdpp Require Import gmap strings list fin_maps.

Local Open Scope string_scope.

(** ** Data model ([types/contract.ts]) *)

(** JavaScript numbers are modelled by the integers they denote; the
    front end only ever stores results of [parseInt] and integers sent by
    the API in these fields. *)

Module Party.
Record t := mk { name : string; role : option string }.
End Party.

Module ExtractedData.
Record t := mk {
  parties : list Party.t;
  effective_date : option string;
  contract_duration_months : option Z;
  contract_duration_raw : option string;
  jurisdiction : option string;
  risk_score : Z
}.
End ExtractedData.

Inductive Severity := warning | error | critical.

Module ValidationIssue.
Record t := mk {
  field : string;
  rule : string;
  message : string;
  severity : Severity;
  reasoning : option string
}.
End ValidationIssue.

Inductive ContractStatus :=
  | pending
  | processing
  | approved
  | requires_human_review
  | rejected.

Module Contract.
Record t := mk {
  id : string;
  file_name : string;
  status : ContractStatus;
  created_at : string;
  processed_at : option string;
  extracted_data : option ExtractedData.t;
  validation_issues : list ValidationIssue.t;
  requires_human_review : bool;
  review_reasons : list string;
  confidence_score : option Q;
  human_approved : bool
}.
End Contract.

(** The status values as they travel on the wire. *)
Definition status_string (s : ContractStatus) : string :=
  match s with
  | pending => "pending"
  | processing => "processing"
  | approved => "approved"
  | requires_human_review => "requires_human_review"
  | rejected => "rejected"
  end.

(** [c.status === '...'] on the closed union of status literals. *)
Definition status_eqb (a b : ContractStatus) : bool :=
  String.eqb (status_string a) (status_string b).

(** ** The runtime's [parseInt] and number coercions *)

Inductive JsNum := NaN | Num (z : Z).

(** White space skipped by [parseInt]: the ECMAScript StrWhiteSpaceChar
    class.  A string is the UTF-8 encoding of the text, so TAB, LF, VT,
    FF, CR and SP are single bytes and the other members of the class
    (NBSP, the Unicode space separators, LS, PS and the BOM) are sequences
    of two or three bytes. *)
Definition is_js_whitespace (c : ascii) : bool :=
  let n := N_of_ascii c in
  ((9 <=? n) && (n <=? 13) || (n =? 32))%N.

(** The first byte of an encoded white space character outside ASCII. *)
Definition is_space_lead (c : ascii) : bool :=
  let n := N_of_ascii c in
  ((n =? 194) || (n =? 225) || (n =? 226) || (n =? 227) || (n =? 239))%N.

(** U+00A0. *)
Definition two_byte_space (c1 c2 : ascii) : bool :=
  ((N_of_ascii c1 =? 194) && (N_of_ascii c2 =? 160))%N.

(** U+1680, U+2000 to U+200A, U+2028, U+2029, U+202F, U+205F, U+3000 and
    U+FEFF. *)
Definition three_byte_space (c1 c2 c3 : ascii) : bool :=
  let a := N_of_ascii c1 in
  let b := N_of_ascii c2 in
  let c := N_of_ascii c3 in
  ((a =? 225) && (b =? 154) && (c =? 128)
   || (a =? 226) && (b =? 128)
      && ((128 <=? c) && (c <=? 138) || (c =? 168) || (c =? 169) || (c =? 175))
   || (a =? 226) && (b =? 129) && (c =? 159)
   || (a =? 227) && (b =? 128) && (c =? 128)
   || (a =? 239) && (b =? 187) && (c =? 191))%N.

Fixpoint trim_start (s : string) : string :=
  match s with
  | String c1 rest1 =>
      if is_js_whitespace c1 then trim_start rest1
      else if negb (is_space_lead c1) then s
      else
        match rest1 with
        | String c2 rest2 =>
            if two_byte_space c1 c2 then trim_start rest2
            else
              match rest2 with
              | String c3 rest3 =>
                  if three_byte_space c1 c2 c3 then trim_start rest3 else s
              | EmptyString => s
              end
        | EmptyString => s
        end
  | EmptyString => s
  end.

Definition digit_value (c : ascii) : option Z :=
  let n := Z.of_N (N_of_ascii c) in
  if ((48 <=? n) && (n <=? 57))%Z then Some (n - 48)%Z
  else if ((97 <=? n) && (n <=? 122))%Z then Some (n - 87)%Z
  else if ((65 <=? n) && (n <=? 90))%Z then Some (n - 55)%Z
  else None.

Definition radix_digit (R : Z) (c : ascii) : option Z :=
  match digit_value c with
  | Some v => if (v <? R)%Z then Some v else None
  | None => None
  end.

(** Reads the longest prefix of radix-[R] digits; [None] when it is empty. *)
Fixpoint parse_digits (R : Z) (s : string) (acc : option Z) : option Z :=
  match s with
  | String c rest =>
      match radix_digit R c with
      | Some v =>
          parse_digits R rest
            (Some (match acc with Some a => a * R + v | None => v end)%Z)
      | None => acc
      end
  | EmptyString => acc
  end.

Definition strip_sign (s : string) : Z * string :=
  match s with
  | String "-" rest => ((-1)%Z, rest)
  | String "+" rest => (1%Z, rest)
  | _ => (1%Z, s)
  end.

Definition strip_hex_prefix (s : string) : Z * string :=
  match s with
  | String "0" (String "x" rest) => (16%Z, rest)
  | String "0" (String "X" rest) => (16%Z, rest)
  | _ => (10%Z, s)
  end.

(** The Number value of an integer: the integer itself up to [2^53] in
    magnitude, and beyond that the nearest number with a significand of 53
    bits, a tie going to the even significand.  A magnitude that rounds to
    [2^1024] or more gives an infinity in the runtime; [JsNum] has no
    separate infinity, and [2^1024] with its sign, which exceeds every
    finite Number, stands for it. *)
Definition to_double (z : Z) : Z :=
  let a := Z.abs z in
  if (a <=? 2 ^ 53)%Z then z
  else
    let e := (Z.log2 a - 52)%Z in
    let q := Z.shiftr a e in
    let r := (a - Z.shiftl q e)%Z in
    let half := Z.shiftl 1 (e - 1) in
    let q' :=
      if (r <? half)%Z then q
      else if (half <? r)%Z then (q + 1)%Z
      else if Z.even q then q else (q + 1)%Z in
    (Z.sgn z * Z.min (Z.shiftl q' e) (2 ^ 1024))%Z.

(** [parseInt(string)] with no radix argument: the digits are read
    exactly and the result is the Number value of the integer they
    denote. *)
Definition parseInt (input : string) : JsNum :=
  let (sign, unsigned) := strip_sign (trim_start input) in
  let (R, digits) := strip_hex_prefix unsigned in
  match parse_digits R digits None with
  | Some m => Num (to_double (sign * m))
  | None => NaN
  end.

(** [x || y] for a number [x]: [NaN] and zero are falsy. *)
Definition js_or (x : JsNum) (y : Z) : Z :=
  match x with
  | Num n => if (n =? 0)%Z then y else n
  | NaN => y
  end.

(** Truthiness of a nullable string: [null] and the empty string are falsy. *)
Definition truthy (o : option string) : bool :=
  match o with
  | Some s => negb (String.eqb s EmptyString)
  | None => false
  end.

(** ** [components/AuditForm.tsx] *)

Inductive Field :=
  | f_effective_date
  | f_contract_duration_months
  | f_jurisdiction
  | f_risk_score.

(** The type of value each call site of [handleChange] passes. *)
Definition FieldValue (f : Field) : Type :=
  match f with
  | f_effective_date | f_jurisdiction => string
  | f_contract_duration_months | f_risk_score => Z
  end.

(** [setFormData(prev => ({...prev, [field]: value}))] *)
Definition handleChange (f : Field) : FieldValue f -> ExtractedData.t -> ExtractedData.t :=
  match f with
  | f_effective_date => fun value prev =>
      ExtractedData.mk (ExtractedData.parties prev) (Some value)
        (ExtractedData.contract_duration_months prev)
        (ExtractedData.contract_duration_raw prev)
        (ExtractedData.jurisdiction prev) (ExtractedData.risk_score prev)
  | f_contract_duration_months => fun value prev =>
      ExtractedData.mk (ExtractedData.parties prev)
        (ExtractedData.effective_date prev) (Some value)
        (ExtractedData.contract_duration_raw prev)
        (ExtractedData.jurisdiction prev) (ExtractedData.risk_score prev)
  | f_jurisdiction => fun value prev =>
      ExtractedData.mk (ExtractedData.parties prev)
        (ExtractedData.effective_date prev)
        (ExtractedData.contract_duration_months prev)
        (ExtractedData.contract_duration_raw prev)
        (Some value) (ExtractedData.risk_score prev)
  | f_risk_score => fun value prev =>
      ExtractedData.mk (ExtractedData.parties prev)
        (ExtractedData.effective_date prev)
        (ExtractedData.contract_duration_months prev)
        (ExtractedData.contract_duration_raw prev)
        (ExtractedData.jurisdiction prev) value
  end.

Inductive PartyField := pf_name | pf_role.

Definition set_party_field (f : PartyField) (value : string) (p : Party.t) : Party.t :=
  match f with
  | pf_name => Party.mk value (Party.role p)
  | pf_role => Party.mk (Party.name p) (Some value)
  end.

(** [newParties[index] = {...newParties[index], [field]: value}].  The
    inputs that call it are rendered from [formData.parties.map], so
    [index] is always in range; out of range the list is left as it is. *)
Definition handlePartyChange (index : nat) (f : PartyField) (value : string)
    (formData : ExtractedData.t) : ExtractedData.t :=
  ExtractedData.mk
    (alter (set_party_field f value) index (ExtractedData.parties formData))
    (ExtractedData.effective_date formData)
    (ExtractedData.contract_duration_months formData)
    (ExtractedData.contract_duration_raw formData)
    (ExtractedData.jurisdiction formData)
    (ExtractedData.risk_score formData).

(** The [onChange] handlers of the duration and risk-score fields. *)
Definition duration_onChange (value : string) : ExtractedData.t -> ExtractedData.t :=
  handleChange f_contract_duration_months (js_or (parseInt value) 0).

Definition risk_score_onChange (value : string) : ExtractedData.t -> ExtractedData.t :=
  let num := Z.min 100 (Z.max 1 (js_or (parseInt value) 1)) in
  handleChange f_risk_score num.

(** The risk meter label next to the risk-score field. *)
Definition risk_label (risk_score : Z) : string :=
  if (70 <? risk_score)%Z then "High Risk"
  else if (40 <? risk_score)%Z then "Medium Risk"
  else "Low Risk".

(** What the form puts on screen: its inputs and, unless disabled, its two
    buttons. *)
Inductive FormInput :=
  | in_party (index : nat) (f : PartyField)
  | in_effective_date
  | in_duration
  | in_jurisdiction
  | in_risk_score.

Inductive FormButton := btn_save | btn_approve.

Inductive Widget :=
  | Input (target : FormInput) (disabled : bool)
  | Button (b : FormButton).

Definition AuditForm_render (formData : ExtractedData.t) (disabled : bool) : list Widget :=
  flat_map
    (fun index => [Input (in_party index pf_name) disabled;
                   Input (in_party index pf_role) disabled])
    (seq 0 (length (ExtractedData.parties formData)))
  ++ [Input in_effective_date disabled;
      Input in_duration disabled;
      Input in_jurisdiction disabled;
      Input in_risk_score disabled]
  ++ (if negb disabled then [Button btn_save; Button btn_approve] else []).

(** What the user can do to the page. *)
Inductive UserEvent :=
  | Change (target : FormInput) (value : string)
  | Click (b : FormButton).

Definition widget_eqb_input (target : FormInput) (w : Widget) : bool :=
  match w, target with
  | Input (in_party i pf_name) false, in_party j pf_name => Nat.eqb i j
  | Input (in_party i pf_role) false, in_party j pf_role => Nat.eqb i j
  | Input in_effective_date false, in_effective_date => true
  | Input in_duration false, in_duration => true
  | Input in_jurisdiction false, in_jurisdiction => true
  | Input in_risk_score false, in_risk_score => true
  | _, _ => false
  end.

Definition widget_eqb_button (b : FormButton) (w : Widget) : bool :=
  match w, b with
  | Button btn_save, btn_save => true
  | Button btn_approve, btn_approve => true
  | _, _ => false
  end.

(** An event can only come from a widget that is on screen and enabled. *)
Definition enabled (view : list Widget) (e : UserEvent) : bool :=
  match e with
  | Change target _ => existsb (widget_eqb_input target) view
  | Click b => existsb (widget_eqb_button b) view
  end.

(** The callbacks the form hands to its parent. *)
Inductive Callback :=
  | onSave (data : ExtractedData.t)
  | onApprove (data : ExtractedData.t).

Definition input_onChange (target : FormInput) (value : string)
    (formData : ExtractedData.t) : ExtractedData.t :=
  match target with
  | in_party index f => handlePartyChange index f value formData
  | in_effective_date => handleChange f_effective_date value formData
  | in_duration => duration_onChange value formData
  | in_jurisdiction => handleChange f_jurisdiction value formData
  | in_risk_score => risk_score_onChange value formData
  end.

(** One event on the form: the next form state and the callback fired. *)
Definition AuditForm_handle (e : UserEvent) (formData : ExtractedData.t)
    : ExtractedData.t * option Callback :=
  match e with
  | Change target value => (input_onChange target value formData, None)
  | Click btn_save => (formData, Some (onSave formData))
  | Click btn_approve => (formData, Some (onApprove formData))
  end.

(** The form driven by a user: events that no enabled widget can produce
    are dropped; the run stops at the first callback. *)
Fixpoint AuditForm_run (disabled : bool) (events : list UserEvent)
    (formData : ExtractedData.t) : ExtractedData.t * option Callback :=
  match events with
  | [] => (formData, None)
  | e :: rest =>
      if enabled (AuditForm_render formData disabled) e then
        match AuditForm_handle e formData with
        | (formData', None) => AuditForm_run disabled rest formData'
        | (formData', Some cb) => (formData', Some cb)
        end
      else AuditForm_run disabled rest formData
  end.

Definition callback_data (cb : Callback) : ExtractedData.t :=
  match cb with
  | onSave data => data
  | onApprove data => data
  end.

(** ** [services/api.ts] *)

Module UpdateRequest.
Record t := mk {
  extracted_data : ExtractedData.t;
  human_approved : bool;
  reviewer_notes : option string
}.
End UpdateRequest.

(** The requests the contract-detail page can send. *)
Inductive ApiCall :=
  | api_put_contract (id : string) (body : UpdateRequest.t).

(** [contractsApi.update]: [PUT /contracts/{id}]. *)
Definition contractsApi_update (id : string) (extractedData : ExtractedData.t)
    (humanApproved : bool) (reviewerNotes : option string) : ApiCall :=
  api_put_contract id (UpdateRequest.mk extractedData humanApproved reviewerNotes).

(** ** [pages/ContractDetail.tsx] *)

Module DetailState.
Record t := mk {
  contract : option Contract.t;
  loading : bool;
  error : option string;
  saving : bool;
  message : option string;
  (** the state of the mounted [AuditForm], if any *)
  formData : option ExtractedData.t
}.
End DetailState.

Definition statusConfig_label (s : ContractStatus) : string :=
  match s with
  | pending => "Pending"
  | processing => "Processing"
  | approved => "Approved"
  | requires_human_review => "Needs Review"
  | rejected => "Rejected"
  end.

Inductive DetailView :=
  | view_loading
  | view_error (text : string)
  | view_page (status_label : string) (form : option (list Widget))
      (approved_banner : bool).

Definition ContractDetail_render (s : DetailState.t) : DetailView :=
  if DetailState.loading s then view_loading
  else
    match DetailState.contract s with
    | Some contract =>
        if truthy (DetailState.error s)
        then view_error (default "Contract not found" (DetailState.error s))
        else
          view_page (statusConfig_label (Contract.status contract))
            match Contract.extracted_data contract, DetailState.formData s with
            | Some _, Some formData =>
                Some (AuditForm_render formData
                        (DetailState.saving s || Contract.human_approved contract))
            | _, _ => None
            end
            (Contract.human_approved contract)
    | None =>
        view_error
          (if truthy (DetailState.error s)
           then default "Contract not found" (DetailState.error s)
           else "Contract not found")
    end.

Definition view_widgets (v : DetailView) : list Widget :=
  match v with
  | view_page _ (Some widgets) _ => widgets
  | _ => []
  end.

(** [handleSave] and [handleApprove] up to the [await]: with no route id
    they return at once. *)
Definition handleSave (id : option string) (data : ExtractedData.t)
    (s : DetailState.t) : DetailState.t * list ApiCall :=
  if truthy id then
    (DetailState.mk (DetailState.contract s) (DetailState.loading s)
       (DetailState.error s) true None (DetailState.formData s),
     [contractsApi_update (default EmptyString id) data false None])
  else (s, []).

Definition handleApprove (id : option string) (data : ExtractedData.t)
    (s : DetailState.t) : DetailState.t * list ApiCall :=
  if truthy id then
    (DetailState.mk (DetailState.contract s) (DetailState.loading s)
       (DetailState.error s) true None (DetailState.formData s),
     [contractsApi_update (default EmptyString id) data true None])
  else (s, []).

(** The continuation after the [await]: the request resolved with the
    updated contract, or was rejected with an optional error message. *)
Definition update_settled (b : FormButton) (r : option string + Contract.t)
    (s : DetailState.t) : DetailState.t :=
  match r with
  | inr updated =>
      DetailState.mk (Some updated) (DetailState.loading s) (DetailState.error s)
        false
        (Some match b with
              | btn_save => "Changes saved successfully"
              | btn_approve => "Contract approved successfully!"
              end)
        (Contract.extracted_data updated)
  | inl err =>
      DetailState.mk (DetailState.contract s) (DetailState.loading s)
        (Some (default
                 match b with
                 | btn_save => "Failed to save changes"
                 | btn_approve => "Failed to approve contract"
                 end err))
        false (DetailState.message s) (DetailState.formData s)
  end.

(** One user event on the page. *)
Definition ContractDetail_step (id : option string) (e : UserEvent)
    (s : DetailState.t) : DetailState.t * list ApiCall :=
  if enabled (view_widgets (ContractDetail_render s)) e then
    match DetailState.formData s with
    | Some formData =>
        match AuditForm_handle e formData with
        | (formData', None) =>
            (DetailState.mk (DetailState.contract s) (DetailState.loading s)
               (DetailState.error s) (DetailState.saving s)
               (DetailState.message s) (Some formData'), [])
        | (_, Some (onSave data)) => handleSave id data s
        | (_, Some (onApprove data)) => handleApprove id data s
        end
    | None => (s, [])
    end
  else (s, []).

(** Any sequence of user events, with the requests it sends. *)
Fixpoint ContractDetail_run (id : option string) (events : list UserEvent)
    (s : DetailState.t) : DetailState.t * list ApiCall :=
  match events with
  | [] => (s, [])
  | e :: rest =>
      let (s1, calls1) := ContractDetail_step id e s in
      let (s2, calls2) := ContractDetail_run id rest s1 in
      (s2, (calls1 ++ calls2)%list)
  end.

(** ** [pages/Dashboard.tsx] *)

Module Dashboard.
Definition needsReview (contracts : list Contract.t) : list Contract.t :=
  List.filter (fun c => Contract.requires_human_review c) contracts.

Definition approved (contracts : list Contract.t) : list Contract.t :=
  List.filter (fun c => status_eqb (Contract.status c) approved) contracts.

Definition processing (contracts : list Contract.t) : list Contract.t :=
  List.filter (fun c => status_eqb (Contract.status c) processing) contracts.

Definition rejected (contracts : list Contract.t) : list Contract.t :=
  List.filter (fun c => status_eqb (Contract.status c) rejected) contracts.

(** The four numbers of the stats bar. *)
Definition stats (contracts : list Contract.t) : nat * nat * nat * nat :=
  (length (needsReview contracts), length (approved contracts),
   length (processing contracts), length (rejected contracts)).
End Dashboard.

(** ** The audit core behind the API

    The server-side modules (extraction, rule validation, lifecycle and
    correction handling) are not among the front-end sources; they are
    modelled from the written specification, section by section. *)

(** Modelled from the spec: the configuration the core reads (reference
    jurisdiction, review threshold, truncation budget, neutral default
    risk score, lenient-recovery confidence, the severity chosen for
    [excessive_duration], message texts and the schema part of the
    prompt); the server settings module is missing. *)
Module Config.
Record t := mk {
  reference_jurisdiction : string;
  confidence_threshold : Q;
  text_budget : nat;
  neutral_risk_score : Z;
  lenient_confidence : Q;
  excessive_duration_severity : Severity;
  rule_message : string -> string;
  schema_prompt : string
}.
End Config.

(** Modelled from the spec: the external collaborators of section 6
    (TextSource, generative completion indexed by attempt number, and the
    strict schema-validated JSON parser, which also applies the
    partial-extraction policy); their implementations are missing. *)
Module Collaborators.
Record t := mk {
  extract : list Byte.byte -> option string;
  complete : nat -> string -> option string;
  schema_parse : string -> option ExtractedData.t
}.
End Collaborators.

(** Modelled from the spec: the error kinds of section 7; the server error
    types are missing. *)
Inductive PipelineError :=
  | ExtractionError
  | ModelInvocationError
  | ParseError
  | PersistenceError.

(** *** RuleValidationEngine (section 4.3) *)

(** Modelled from the spec: a row of the rule table,
    [{id, field, predicate, message, severity, review_reason}]; the
    validation module is missing. *)
Module Rule.
Record t := mk {
  id : string;
  field : string;
  predicate : ExtractedData.t -> bool;
  message : string;
  severity : Severity;
  review_reason : option string
}.
End Rule.

(** Modelled from the spec: [ValidationResult] of section 3; the server
    schema module is missing. *)
Module ValidationResult.
Record t := mk {
  issues : list ValidationIssue.t;
  requires_human_review : bool;
  review_reasons : list string
}.
End ValidationResult.

(** Modelled from the spec: [contract_duration_months > 24]; the
    validation module is missing. *)
Definition excessive_duration (data : ExtractedData.t) : bool :=
  match ExtractedData.contract_duration_months data with
  | Some months => (24 <? months)%Z
  | None => false
  end.

(** Modelled from the spec: [jurisdiction] set and different from the
    reference jurisdiction; the validation module is missing. *)
Definition foreign_jurisdiction (reference : string) (data : ExtractedData.t) : bool :=
  match ExtractedData.jurisdiction data with
  | Some j => negb (String.eqb j reference)
  | None => false
  end.

(** Modelled from the spec: [risk_score > 70]; the validation module is
    missing. *)
Definition high_risk (data : ExtractedData.t) : bool :=
  (70 <? ExtractedData.risk_score data)%Z.

(** Modelled from the spec: the baseline rule set of section 4.3; the
    validation module is missing. *)
Definition baseline_rules (cfg : Config.t) : list Rule.t :=
  [ Rule.mk "excessive_duration" "contract_duration_months" excessive_duration
      (Config.rule_message cfg "excessive_duration")
      (Config.excessive_duration_severity cfg) (Some "excessive duration");
    Rule.mk "foreign_jurisdiction" "jurisdiction"
      (foreign_jurisdiction (Config.reference_jurisdiction cfg))
      (Config.rule_message cfg "foreign_jurisdiction")
      warning (Some "foreign jurisdiction");
    Rule.mk "high_risk" "risk_score" high_risk
      (Config.rule_message cfg "high_risk")
      error (Some "high risk") ].

(** Modelled from the spec: the issue a matching rule appends; the
    validation module is missing. *)
Definition issue_of (r : Rule.t) : ValidationIssue.t :=
  ValidationIssue.mk (Rule.field r) (Rule.id r) (Rule.message r)
    (Rule.severity r) None.

(** Modelled from the spec: one rule evaluated against the data, appending
    its issue and, for a review-triggering rule, its reason; the validation
    module is missing. *)
Definition apply_rule (data : ExtractedData.t) (acc : ValidationResult.t)
    (r : Rule.t) : ValidationResult.t :=
  if Rule.predicate r data then
    ValidationResult.mk
      (ValidationResult.issues acc ++ [issue_of r])
      true
      (ValidationResult.review_reasons acc ++ option_list (Rule.review_reason r))
  else acc.

(** Modelled from the spec: every rule of the table is evaluated, in
    order, starting from an empty result; the validation module is
    missing. *)
Definition RuleValidationEngine (table : list Rule.t) (data : ExtractedData.t)
    : ValidationResult.t :=
  fold_left (apply_rule data) table (ValidationResult.mk [] false []).

(** Modelled from the spec: the engine on the baseline table; the
    validation module is missing. *)
Definition validate (cfg : Config.t) (data : ExtractedData.t) : ValidationResult.t :=
  RuleValidationEngine (baseline_rules cfg) data.

(** Modelled from the spec: whether the field a rule governs is set in the
    data ([risk_score] and [parties] are not optional); the validation
    module is missing. *)
Definition field_is_set (field : string) (data : ExtractedData.t) : bool :=
  if String.eqb field "effective_date"
  then bool_decide (is_Some (ExtractedData.effective_date data))
  else if String.eqb field "contract_duration_months"
  then bool_decide (is_Some (ExtractedData.contract_duration_months data))
  else if String.eqb field "contract_duration_raw"
  then bool_decide (is_Some (ExtractedData.contract_duration_raw data))
  else if String.eqb field "jurisdiction"
  then bool_decide (is_Some (ExtractedData.jurisdiction data))
  else true.

(** Whether a validation run reported an issue of the given rule. *)
Definition has_issue (rule : string) (r : ValidationResult.t) : bool :=
  existsb (fun i => String.eqb (ValidationIssue.rule i) rule)
    (ValidationResult.issues r).

Definition has_reason (reason : string) (r : ValidationResult.t) : bool :=
  existsb (String.eqb reason) (ValidationResult.review_reasons r).

(** *** StructuredExtractor (section 4.2) *)

Definition string_rev (s : string) : string :=
  string_of_list_ascii (rev (list_ascii_of_string s)).

Definition trim (s : string) : string :=
  string_rev (trim_start (string_rev (trim_start s))).

Definition strip_prefix (p s : string) : option string :=
  if String.prefix p s
  then Some (substring (String.length p) (String.length s - String.length p) s)
  else None.

Definition strip_suffix (p s : string) : option string :=
  option_map string_rev (strip_prefix (string_rev p) (string_rev s)).

Fixpoint find_char (c : ascii) (s : string) : option nat :=
  match s with
  | String c' rest =>
      if Ascii.eqb c c' then Some 0 else option_map S (find_char c rest)
  | EmptyString => None
  end.

(** Modelled from the spec: the truncation policy of section 4.1 (only
    the first N characters are forwarded); the pipeline module is
    missing. *)
Definition truncate (cfg : Config.t) (text : string) : string :=
  substring 0 (Config.text_budget cfg) text.

(** Modelled from the spec: step 1, a prompt embedding the schema
    description and the JSON-only instruction; the extractor module is
    missing. *)
Definition build_prompt (cfg : Config.t) (text : string) : string :=
  String.append (Config.schema_prompt cfg) text.

(** Modelled from the spec: step 2, the completion call with at most one
    retry on invocation failure; the extractor module is missing. *)
Definition invoke_with_retry (col : Collaborators.t) (prompt : string)
    : PipelineError + string :=
  match Collaborators.complete col 0 prompt with
  | Some response => inr response
  | None =>
      match Collaborators.complete col 1 prompt with
      | Some response => inr response
      | None => inl ModelInvocationError
      end
  end.

(** Modelled from the spec: step 3a, markdown code-fence wrappers and
    surrounding whitespace stripped; the extractor module is missing. *)
Definition strip_code_fence (response : string) : string :=
  let s := trim response in
  let s :=
    match strip_prefix "```json" s with
    | Some body => body
    | None => default s (strip_prefix "```" s)
    end in
  trim (default s (strip_suffix "```" s)).

(** Modelled from the spec: step 3b, the substring from the first opening
    brace to the last closing brace of the response; the extractor module
    is missing. *)
Definition lenient_slice (response : string) : option string :=
  match find_char "{" response, find_char "}" (string_rev response) with
  | Some first, Some from_end =>
      let last := String.length response - 1 - from_end in
      if Nat.leb first last then Some (substring first (last - first + 1) response)
      else None
  | _, _ => None
  end.

(** Modelled from the spec: step 3c, the default record (empty parties,
    optional fields unset, neutral risk score); the extractor module is
    missing. *)
Definition default_record (cfg : Config.t) : ExtractedData.t :=
  ExtractedData.mk [] None None None None (Config.neutral_risk_score cfg).

(** Modelled from the spec: the defensive parse chain of step 3 with the
    confidence of step 5 (1 on strict parse, the reduced value on lenient
    recovery, 0 on fallback); the extractor module is missing. *)
Definition parse_chain (cfg : Config.t) (col : Collaborators.t)
    (response : string) : ExtractedData.t * Q :=
  match Collaborators.schema_parse col (strip_code_fence response) with
  | Some data => (data, 1%Q)
  | None =>
      match lenient_slice response ≫= Collaborators.schema_parse col with
      | Some data => (data, Config.lenient_confidence cfg)
      | None => (default_record cfg, 0%Q)
      end
  end.

(** Modelled from the spec: the extractor, total from text to a record
    and a confidence; the extractor module is missing. *)
Definition StructuredExtractor (cfg : Config.t) (col : Collaborators.t)
    (text : string) : ExtractedData.t * Q :=
  match invoke_with_retry col (build_prompt cfg text) with
  | inr response => parse_chain cfg col response
  | inl _ => (default_record cfg, 0%Q)
  end.

(** *** LifecycleManager (section 4.4) *)

(** Modelled from the spec: what drives a transition; the lifecycle
    module is missing. *)
Inductive LifecycleEvent :=
  | PipelineStart
  | ExtractionDone (validation : ValidationResult.t) (confidence : Q)
  | NotAContract
  | HumanApprove (validation : ValidationResult.t)
  | HumanSave (validation : ValidationResult.t).

(** Modelled from the spec: confidence below the configured threshold;
    the lifecycle module is missing. *)
Definition below_threshold (cfg : Config.t) (confidence : Q) : bool :=
  negb (Qle_bool (Config.confidence_threshold cfg) confidence).

(** Modelled from the spec: review is required iff a rule matched or the
    confidence is below the threshold; the lifecycle module is missing. *)
Definition needs_review (cfg : Config.t) (validation : ValidationResult.t)
    (confidence : Q) : bool :=
  ValidationResult.requires_human_review validation || below_threshold cfg confidence.

(** Modelled from the spec: the transitions of section 4.4; a human
    approval succeeds on a clean re-run and, as the permitted override,
    also with remaining issues; the lifecycle module is missing. *)
Definition transition (cfg : Config.t) (s : ContractStatus) (e : LifecycleEvent)
    : option ContractStatus :=
  match s, e with
  | pending, PipelineStart => Some processing
  | processing, ExtractionDone validation confidence =>
      if needs_review cfg validation confidence
      then Some requires_human_review
      else Some approved
  | processing, NotAContract => Some rejected
  | requires_human_review, HumanApprove _ => Some approved
  | requires_human_review, HumanSave _ => Some requires_human_review
  | _, _ => None
  end.

(** Modelled from the spec: the status after an event, unchanged when the
    state machine lists no transition for it; the lifecycle module is
    missing. *)
Definition advance (cfg : Config.t) (s : ContractStatus) (e : LifecycleEvent)
    : ContractStatus :=
  default s (transition cfg s e).

(** *** The pipeline: [audit] (sections 2 and 6) *)

(** Modelled from the spec: [audit(documentBytes, fileName)]: the
    contract is created [pending], moved to [processing], extracted,
    validated, given its status and stored as one full-record write; only
    an extraction error of the TextSource aborts it; the pipeline module
    is missing.  [new_id] and [now] are the fresh identifier and the clock
    reading supplied by the surrounding application. *)
Definition audit (cfg : Config.t) (col : Collaborators.t) (new_id now : string)
    (documentBytes : list Byte.byte) (fileName : string)
    (store : gmap string Contract.t)
    : PipelineError + Contract.t * gmap string Contract.t :=
  match Collaborators.extract col documentBytes with
  | None => inl ExtractionError
  | Some text =>
      let started := advance cfg pending PipelineStart in
      let (data, confidence) := StructuredExtractor cfg col (truncate cfg text) in
      let validation := validate cfg data in
      let contract :=
        Contract.mk new_id fileName
          (advance cfg started (ExtractionDone validation confidence))
          now None (Some data)
          (ValidationResult.issues validation)
          (needs_review cfg validation confidence)
          (ValidationResult.review_reasons validation)
          (Some confidence) false in
      inr (contract, <[new_id := contract]> store)
  end.

(** *** CorrectionHandler (section 4.5) *)

(** Modelled from the spec: [save(id, ExtractedData)]: the edited data is
    persisted, the engine re-run, its issues, reasons and verdict replace
    the stored ones; the correction module is missing. *)
Definition save (cfg : Config.t) (id : string) (data : ExtractedData.t)
    (store : gmap string Contract.t)
    : option (Contract.t * gmap string Contract.t) :=
  match store !! id with
  | Some c =>
      let validation := validate cfg data in
      let c' :=
        Contract.mk (Contract.id c) (Contract.file_name c)
          (advance cfg (Contract.status c) (HumanSave validation))
          (Contract.created_at c) (Contract.processed_at c) (Some data)
          (ValidationResult.issues validation)
          (ValidationResult.requires_human_review validation)
          (ValidationResult.review_reasons validation)
          (Contract.confidence_score c) (Contract.human_approved c) in
      Some (c', <[id := c']> store)
  | None => None
  end.

(** Modelled from the spec: [approve(id, ExtractedData)]: as [save], then
    the approval transition, [human_approved] and [processed_at]; the
    correction module is missing. *)
Definition approve (cfg : Config.t) (now : string) (id : string)
    (data : ExtractedData.t) (store : gmap string Contract.t)
    : option (Contract.t * gmap string Contract.t) :=
  match store !! id with
  | Some c =>
      let validation := validate cfg data in
      let c' :=
        Contract.mk (Contract.id c) (Contract.file_name c)
          (advance cfg (Contract.status c) (HumanApprove validation))
          (Contract.created_at c) (Some now) (Some data)
          (ValidationResult.issues validation)
          (ValidationResult.requires_human_review validation)
          (ValidationResult.review_reasons validation)
          (Contract.confidence_score c) true in
      Some (c', <[id := c']> store)
  | None => None
  end.

(** Modelled from the spec: [update(id, ExtractedData, humanApproved)]
    dispatches to [save] or [approve]; reviewer notes are accepted and are
    not a field of the contract record; the API module is missing. *)
Definition update (cfg : Config.t) (now : string) (id : string)
    (data : ExtractedData.t) (humanApproved : bool)
    (reviewerNotes : option string) (store : gmap string Contract.t)
    : option (Contract.t * gmap string Contract.t) :=
  if humanApproved then approve cfg now id data store
  else save cfg id data store.

(** Modelled from the spec: the server end of a request sent by the front
    end; the API module is missing. *)
Definition serve (cfg : Config.t) (now : string) (call : ApiCall)
    (store : gmap string Contract.t)
    : option (Contract.t * gmap string Contract.t) :=
  match call with
  | api_put_contract id body =>
      update cfg now id (UpdateRequest.extracted_data body)
        (UpdateRequest.human_approved body)
        (UpdateRequest.reviewer_notes body) store
  end.

(** The part of a stored contract that a validation run determines. *)
Definition stored_validation (c : Contract.t) : ValidationResult.t :=
  ValidationResult.mk (Contract.validation_issues c)
    (Contract.requires_human_review c) (Contract.review_reasons c).

(** A configuration and collaborators to run the definitions on. *)
Definition sample_config : Config.t :=
  Config.mk "Chile" (1 # 2) (Z.to_nat 30000) 50 (1 # 2) warning
    (fun rule => String.append "rule violated: " rule)
    "Respond only with the JSON. ".


Definition sample_data (months : Z) (jurisdiction : string) (risk : Z) : ExtractedData.t :=
  ExtractedData.mk [Party.mk "Acme SpA" (Some "provider")] (Some "2024-01-01")
    (Some months) (Some "a term in months") (Some jurisdiction) risk.

Definition sample_contract (id : string) (s : ContractStatus) (flag approved_by_human : bool)
    : Contract.t :=
  Contract.mk id "contract.pdf" s "2024-01-01T00:00:00Z" None
    (Some (sample_data 12 "Chile" 30)) [] flag [] (Some 1%Q) approved_by_human.



(** Clamping into the closed range from 1 to 100, written by cases. *)
Definition clamp_1_100 (n : Z) : Z :=
  if (n <? 1)%Z then 1%Z else if (100 <? n)%Z then 100%Z else n.

Definition is_risk_edit (e : UserEvent) : bool :=
  match e with
  | Change in_risk_score _ => true
  | _ => false
  end.

Definition is_duration_edit (e : UserEvent) : bool :=
  match e with
  | Change in_duration _ => true
  | _ => false
  end.


(** ** More of the front end *)

(** *** [components/AuditForm.tsx]: errors and displayed values *)

(** [validationIssues.find((issue) => issue.field === fieldName)] *)
Definition getFieldError (validationIssues : list ValidationIssue.t)
    (fieldName : string) : option ValidationIssue.t :=
  List.find (λ issue, String.eqb (ValidationIssue.field issue) fieldName)
    validationIssues.

(** The [error] prop of each [FieldWithError] of the form, by the [name]
    prop of the field; the party inputs take no error. *)
Definition AuditForm_errors (validationIssues : list ValidationIssue.t)
    : list (string * option ValidationIssue.t) :=
  List.map (λ fieldName, (fieldName, getFieldError validationIssues fieldName))
    ["effective_date"; "contract_duration_months"; "jurisdiction"; "risk_score"].

(** How the DOM shows a number given as an input value: its decimal
    digits, with a minus sign when negative.  This is ECMAScript ToString
    on the safe integers (those of magnitude below [2^53]). *)
Definition js_number_to_string (n : Z) : string :=
  NilEmpty.string_of_int (Z.to_int n).

Definition MAX_SAFE_INTEGER : Z := 9007199254740991.

(** The number denoted by a sequence of decimal digits read after digits
    that already denote [acc]. *)
Fixpoint uint_value (u : Decimal.uint) (acc : Z) : Z :=
  match u with
  | Decimal.Nil => acc
  | Decimal.D0 u => uint_value u (acc * 10 + 0)
  | Decimal.D1 u => uint_value u (acc * 10 + 1)
  | Decimal.D2 u => uint_value u (acc * 10 + 2)
  | Decimal.D3 u => uint_value u (acc * 10 + 3)
  | Decimal.D4 u => uint_value u (acc * 10 + 4)
  | Decimal.D5 u => uint_value u (acc * 10 + 5)
  | Decimal.D6 u => uint_value u (acc * 10 + 6)
  | Decimal.D7 u => uint_value u (acc * 10 + 7)
  | Decimal.D8 u => uint_value u (acc * 10 + 8)
  | Decimal.D9 u => uint_value u (acc * 10 + 9)
  end%Z.

(** [s || ''] and [s ?? ''] on a nullable string agree: both give the
    string itself when there is one. *)
Definition or_empty (o : option string) : string := default EmptyString o.

(** The [value] prop each input of the form is given. *)
Definition AuditForm_value (target : FormInput) (formData : ExtractedData.t) : string :=
  match target with
  | in_party index pf_name =>
      from_option Party.name EmptyString (ExtractedData.parties formData !! index)
  | in_party index pf_role =>
      from_option (λ party, or_empty (Party.role party)) EmptyString
        (ExtractedData.parties formData !! index)
  | in_effective_date => or_empty (ExtractedData.effective_date formData)
  | in_duration =>
      from_option js_number_to_string EmptyString
        (ExtractedData.contract_duration_months formData)
  | in_jurisdiction => or_empty (ExtractedData.jurisdiction formData)
  | in_risk_score => js_number_to_string (ExtractedData.risk_score formData)
  end.

Definition is_edit_of (target : FormInput) (e : UserEvent) : bool :=
  match e, target with
  | Change in_effective_date _, in_effective_date => true
  | Change in_duration _, in_duration => true
  | Change in_jurisdiction _, in_jurisdiction => true
  | Change in_risk_score _, in_risk_score => true
  | _, _ => false
  end.

Definition is_scalar_edit (e : UserEvent) : bool :=
  match e with
  | Change (in_party _ _) _ => false
  | Change _ _ => true
  | Click _ => false
  end.

(** The two free-text fields of the form, by the input that edits them. *)
Definition text_field (target : FormInput) (formData : ExtractedData.t)
    : option string :=
  match target with
  | in_effective_date => ExtractedData.effective_date formData
  | in_jurisdiction => ExtractedData.jurisdiction formData
  | _ => None
  end.

(** Whether a scalar field holds a value that its input can show and take
    back: an optional field must be set, the risk score must lie in the
    range the input clamps to. *)
Definition retypable (target : FormInput) (formData : ExtractedData.t) : bool :=
  match target with
  | in_party _ _ => false
  | in_effective_date =>
      match ExtractedData.effective_date formData with Some _ => true | None => false end
  | in_duration =>
      match ExtractedData.contract_duration_months formData with
      | Some _ => true
      | None => false
      end
  | in_jurisdiction =>
      match ExtractedData.jurisdiction formData with Some _ => true | None => false end
  | in_risk_score =>
      ((1 <=? ExtractedData.risk_score formData)
       && (ExtractedData.risk_score formData <=? 100))%Z
  end.

(** The numbers of the form data are safe integers, which the DOM shows
    digit by digit. *)
Definition safe_numbers (formData : ExtractedData.t) : Prop :=
  (Z.abs (ExtractedData.risk_score formData) ≤ MAX_SAFE_INTEGER)%Z
  ∧ ∀ months, ExtractedData.contract_duration_months formData = Some months →
              (Z.abs months ≤ MAX_SAFE_INTEGER)%Z.

(** *** [components/ContractCard.tsx] *)

Inductive CardNode :=
  | card_jurisdiction (jurisdiction : string)
  | card_duration (months : Z)
  | card_text (text : string)
  | card_risk (color : string) (risk_score : Z)
  | card_issues (count : nat).

(** [{months && (<p>Duration: {months} months</p>)}]: an absent value
    renders nothing, a nonzero number renders the paragraph, and zero is
    itself the value of the expression, which React renders as the text
    of the number. *)
Definition card_duration_slot (months : option Z) : list CardNode :=
  match months with
  | None => []
  | Some n => if (n =? 0)%Z then [card_text "0"] else [card_duration n]
  end.

(** [{jurisdiction && (<p>...</p>)}]: an absent or empty string renders
    nothing. *)
Definition card_jurisdiction_slot (jurisdiction : option string) : list CardNode :=
  if truthy jurisdiction then [card_jurisdiction (or_empty jurisdiction)] else [].

Definition risk_color (risk_score : Z) : string :=
  if (70 <? risk_score)%Z then "bg-red-500"
  else if (40 <? risk_score)%Z then "bg-amber-500"
  else "bg-green-500".

(** The body of a card below its title, date and status badge. *)
Definition ContractCard_body (contract : Contract.t) : list CardNode :=
  match Contract.extracted_data contract with
  | Some data =>
      card_jurisdiction_slot (ExtractedData.jurisdiction data)
      ++ card_duration_slot (ExtractedData.contract_duration_months data)
      ++ [card_risk (risk_color (ExtractedData.risk_score data))
            (ExtractedData.risk_score data)]
  | None => []
  end
  ++ (if Nat.ltb 0 (length (Contract.validation_issues contract))
      then [card_issues (length (Contract.validation_issues contract))]
      else []).

(** *** [components/ContractList.tsx] and the lists of the dashboard *)






(** *** [pages/Dashboard.tsx]: the upload handler *)

Definition to_lower_ascii (c : ascii) : ascii :=
  let n := N_of_ascii c in
  if ((65 <=? n) && (n <=? 90))%N then ascii_of_N (n + 32) else c.

(** [String.prototype.toLowerCase] on the ASCII letters, which are the
    only ones the extension test can see. *)
Fixpoint toLowerCase (s : string) : string :=
  match s with
  | String c rest => String (to_lower_ascii c) (toLowerCase rest)
  | EmptyString => EmptyString
  end.

(** [s.endsWith(suffix)] *)
Definition endsWith (s suffix : string) : bool :=
  Nat.leb (String.length suffix) (String.length s)
  && String.eqb
       (substring (String.length s - String.length suffix) (String.length suffix) s)
       suffix.

Module File.
Record t := mk { name : string; content : list Byte.byte }.
End File.

Module DashboardState.
Record t := mk {
  contracts : list Contract.t;
  loading : bool;
  error : option string;
  uploading : bool;
  uploadProgress : string
}.
End DashboardState.

(** [handleFileUpload] up to the [await]: the new state and the file
    posted to [/audit], if any. *)
Definition handleFileUpload (file : option File.t) (s : DashboardState.t)
    : DashboardState.t * option File.t :=
  match file with
  | None => (s, None)
  | Some f =>
      if negb (endsWith (toLowerCase (File.name f)) ".pdf") then
        (DashboardState.mk (DashboardState.contracts s) (DashboardState.loading s)
           (Some "Please upload a PDF file") (DashboardState.uploading s)
           (DashboardState.uploadProgress s), None)
      else
        (DashboardState.mk (DashboardState.contracts s) (DashboardState.loading s)
           None true "Uploading and analyzing contract...", Some f)
  end.

(** *** [pages/ContractDetail.tsx]: loading and settled requests *)

Inductive FetchCall :=
  | api_get_contract (id : string).

Definition ContractDetail_initial : DetailState.t :=
  DetailState.mk None true None false None None.

(** [fetchContract]: nothing is requested without a route id. *)
Definition fetchContract (id : option string) : list FetchCall :=
  if truthy id then [api_get_contract (default EmptyString id)] else [].

(** The continuation of [fetchContract] after the [await]. *)
Definition fetch_settled (r : option string + Contract.t) (s : DetailState.t)
    : DetailState.t :=
  match r with
  | inr data =>
      DetailState.mk (Some data) false (DetailState.error s)
        (DetailState.saving s) (DetailState.message s)
        (Contract.extracted_data data)
  | inl err =>
      DetailState.mk (DetailState.contract s) false
        (Some (default "Failed to load contract" err))
        (DetailState.saving s) (DetailState.message s) (DetailState.formData s)
  end.

(** The form data after a list of edits, applied in order. *)
Definition apply_edits (edits : list UserEvent) (formData : ExtractedData.t)
    : ExtractedData.t :=
  fold_left (λ data e, (AuditForm_handle e data).1) edits formData.

Definition button_flag (b : FormButton) : bool :=
  match b with
  | btn_save => false
  | btn_approve => true
  end.

(** The page shows an enabled form holding [formData]: it is loaded, shows
    no error, is not saving, and its contract has extracted data and is
    not yet approved by a human. *)
Definition page_ready (s : DetailState.t) (formData : ExtractedData.t) : Prop :=
  DetailState.loading s = false
  ∧ truthy (DetailState.error s) = false
  ∧ DetailState.saving s = false
  ∧ DetailState.formData s = Some formData
  ∧ ∃ contract data,
      DetailState.contract s = Some contract
      ∧ Contract.extracted_data contract = Some data
      ∧ Contract.human_approved contract = false.

(** *** [components/PDFViewer.tsx]: page navigation *)

Inductive ViewMode := mode_pdf | mode_text.

(** The part of the viewer state that page navigation reads and writes;
    the zoom factor and the fetched text do not interact with it. *)
Module PDFViewerState.
Record t := mk {
  numPages : Z;
  currentPage : Z;
  loading : bool;
  viewMode : ViewMode
}.
End PDFViewerState.

Definition PDFViewer_initial : PDFViewerState.t :=
  PDFViewerState.mk 0 1 true mode_pdf.

Definition goToPrevPage (prev : Z) : Z := Z.max (prev - 1) 1.

Definition goToNextPage (numPages prev : Z) : Z := Z.min (prev + 1) numPages.

Inductive ViewerEvent :=
  | ev_prev
  | ev_next
  | ev_page_input (value : string)
  | ev_show_text
  | ev_try_pdf
  | ev_load_success (numPages : Z)
  | ev_load_error.

Definition is_navigation (e : ViewerEvent) : bool :=
  match e with
  | ev_load_success _ | ev_load_error => false
  | _ => true
  end.

(** One event on the viewer.  The page buttons and the page input exist
    in the PDF view only; a disabled button and an input that is not
    rendered produce no event. *)
Definition PDFViewer_step (e : ViewerEvent) (s : PDFViewerState.t)
    : PDFViewerState.t :=
  let numPages := PDFViewerState.numPages s in
  let currentPage := PDFViewerState.currentPage s in
  let set_page page :=
    PDFViewerState.mk numPages page (PDFViewerState.loading s)
      (PDFViewerState.viewMode s) in
  match PDFViewerState.viewMode s, e with
  | mode_pdf, ev_prev =>
      if (currentPage <=? 1)%Z then s else set_page (goToPrevPage currentPage)
  | mode_pdf, ev_next =>
      if (numPages <=? currentPage)%Z then s
      else set_page (goToNextPage numPages currentPage)
  | mode_pdf, ev_page_input value =>
      if (0 <? numPages)%Z then
        match parseInt value with
        | Num page =>
            if ((1 <=? page) && (page <=? numPages))%Z then set_page page else s
        | NaN => s
        end
      else s
  | mode_pdf, ev_show_text =>
      PDFViewerState.mk numPages currentPage (PDFViewerState.loading s) mode_text
  | mode_text, ev_try_pdf =>
      PDFViewerState.mk numPages currentPage (PDFViewerState.loading s) mode_pdf
  | _, ev_load_success n =>
      PDFViewerState.mk n currentPage false (PDFViewerState.viewMode s)
  | _, ev_load_error =>
      PDFViewerState.mk numPages currentPage false mode_text
  | _, _ => s
  end.

(** The current page is one of the pages of the loaded document. *)
Definition page_in_range (s : PDFViewerState.t) : Prop :=
  (1 ≤ PDFViewerState.currentPage s ≤ PDFViewerState.numPages s)%Z.

Definition PDFViewer_run (events : list ViewerEvent) (s : PDFViewerState.t)
    : PDFViewerState.t :=
  fold_left (λ state e, PDFViewer_step e state) events s.

(** * Properties of the review front end *)

Section AuditFormFacts.

Implicit Types (formData : ExtractedData.t) (e : UserEvent).

Lemma enabled_app view1 view2 e :
  enabled (view1 ++ view2) e = enabled view1 e || enabled view2 e.
Proof. destruct e; simpl; apply existsb_app. Qed.

(** The four scalar inputs are always on screen, enabled unless the form
    is. *)
Lemma scalar_input_enabled formData target value :
  (∀ i f, target ≠ in_party i f) →
  enabled (AuditForm_render formData false) (Change target value) = true.
Proof.
  intros Hscalar. unfold AuditForm_render.
  rewrite enabled_app, enabled_app.
  destruct target; simpl; rewrite ?orb_true_r; try reflexivity.
  exfalso. eapply Hscalar. reflexivity.
Qed.

Lemma AuditForm_run_edit formData target value later :
  (∀ i f, target ≠ in_party i f) →
  AuditForm_run false (Change target value :: later) formData
  = AuditForm_run false later (input_onChange target value formData).
Proof.
  intros Hscalar. cbn [AuditForm_run].
  rewrite scalar_input_enabled by exact Hscalar. reflexivity.
Qed.

(** A property of the form data that every event of a run preserves
    holds of what the run hands to its callback. *)
Lemma AuditForm_run_invariant (P : ExtractedData.t → Prop) disabled events :
  Forall (λ e, ∀ d, P d → P (AuditForm_handle e d).1) events →
  ∀ formData final cb,
    P formData →
    AuditForm_run disabled events formData = (final, Some cb) →
    P (callback_data cb).
Proof.
  induction 1 as [|e rest He _ IH]; intros formData final cb HP Hrun;
    simpl in Hrun; [discriminate|].
  destruct (enabled (AuditForm_render formData disabled) e); [|eauto].
  specialize (He formData HP).
  destruct e as [target value|[]]; simpl in *.
  - eauto.
  - injection Hrun as _ <-. exact HP.
  - injection Hrun as _ <-. exact HP.
Qed.

Lemma risk_score_onChange_range value formData :
  (1 ≤ ExtractedData.risk_score (risk_score_onChange value formData) ≤ 100)%Z.
Proof. unfold risk_score_onChange. simpl. lia. Qed.

Lemma handle_keeps_range e formData :
  (1 ≤ ExtractedData.risk_score formData ≤ 100)%Z →
  (1 ≤ ExtractedData.risk_score (AuditForm_handle e formData).1 ≤ 100)%Z.
Proof.
  intros Hrange. destruct e as [[i f| | | |] value|[]]; try exact Hrange.
  exact (risk_score_onChange_range value formData).
Qed.

Lemma handle_keeps_risk_score e formData :
  is_risk_edit e = false →
  ExtractedData.risk_score (AuditForm_handle e formData).1
  = ExtractedData.risk_score formData.
Proof. destruct e as [[i f| | | |] value|[]]; simpl; congruence. Qed.

Lemma handle_keeps_duration e formData :
  is_duration_edit e = false →
  ExtractedData.contract_duration_months (AuditForm_handle e formData).1
  = ExtractedData.contract_duration_months formData.
Proof. destruct e as [[i f| | | |] value|[]]; simpl; congruence. Qed.

Lemma handle_keeps_duration_set e formData :
  is_Some (ExtractedData.contract_duration_months formData) →
  is_Some (ExtractedData.contract_duration_months (AuditForm_handle e formData).1).
Proof.
  intros Hset. destruct e as [[i f| | | |] value|[]]; simpl; try exact Hset.
  eexists. reflexivity.
Qed.

Lemma clamp_1_100_spec n : Z.min 100 (Z.max 1 n) = clamp_1_100 n.
Proof.
  unfold clamp_1_100.
  destruct (Z.ltb_spec n 1); [lia|]. destruct (Z.ltb_spec 100 n); lia.
Qed.

End AuditFormFacts.

(** C2.  Whatever text is typed into the risk-score field, the risk score
    that a later Save or Approve submits lies between 1 and 100; when no
    further risk-score edit follows, it is the typed number clamped into
    that range (1 when the text is not a number), so an out-of-range entry
    is never passed on unchanged. *)
Theorem risk_score_edit_is_clamped
    (value : string) (formData final : ExtractedData.t)
    (later : list UserEvent) (cb : Callback) :
  AuditForm_run false (Change in_risk_score value :: later) formData
  = (final, Some cb) →
  let submitted := ExtractedData.risk_score (callback_data cb) in
  (1 ≤ submitted ≤ 100)%Z
  ∧ (forallb (λ e, negb (is_risk_edit e)) later = true →
     submitted = match parseInt value with
                 | Num n => clamp_1_100 n
                 | NaN => 1%Z
                 end).
Proof.
  intros Hrun submitted. subst submitted.
  rewrite AuditForm_run_edit in Hrun by discriminate.
  split.
  - eapply (AuditForm_run_invariant
              (λ d, (1 ≤ ExtractedData.risk_score d ≤ 100)%Z)); [| |exact Hrun].
    + apply List.Forall_forall. intros e _ d. apply handle_keeps_range.
    + apply risk_score_onChange_range.
  - intros Hlater.
    eapply (AuditForm_run_invariant
              (λ d, ExtractedData.risk_score d = _)); [| |exact Hrun].
    + apply List.Forall_forall. intros e He d Hd.
      rewrite forallb_forall in Hlater. apply Hlater in He.
      rewrite handle_keeps_risk_score by (destruct (is_risk_edit e); done).
      exact Hd.
    + unfold risk_score_onChange. simpl. rewrite clamp_1_100_spec.
      destruct (parseInt value) as [|n]; simpl; [reflexivity|].
      destruct (Z.eqb_spec n 0); [subst|]; reflexivity.
Qed.

Lemma risk_score_edit_is_clamped_witness :
  let data := sample_data 12 "Chile" 30 in
  let later := [Change in_jurisdiction "Peru"; Click btn_approve] in
  ∃ final cb,
    AuditForm_run false (Change in_risk_score "150" :: later) data = (final, Some cb)
    ∧ ExtractedData.risk_score (callback_data cb) = 100%Z.
Proof.
  intros data later. eexists _, _. split; [reflexivity|].
  match goal with
  | |- ExtractedData.risk_score (callback_data ?cb) = _ =>
      exact (proj2 (risk_score_edit_is_clamped "150" data (callback_data cb)
                      later cb eq_refl) eq_refl)
  end.
Defined.

(** C8.  Whatever text is typed into the duration field, a later Save or
    Approve submits [contract_duration_months] as a number, never unset;
    when no further duration edit follows, that number is [parseInt] of
    the text if it is a nonzero number and 0 otherwise. *)
Theorem duration_edit_is_never_unset
    (value : string) (formData final : ExtractedData.t)
    (later : list UserEvent) (cb : Callback) :
  AuditForm_run false (Change in_duration value :: later) formData
  = (final, Some cb) →
  let submitted := ExtractedData.contract_duration_months (callback_data cb) in
  is_Some submitted
  ∧ (forallb (λ e, negb (is_duration_edit e)) later = true →
     ∃ months,
       submitted = Some months
       ∧ (∀ n, parseInt value = Num n → n ≠ 0%Z → months = n)
       ∧ (parseInt value = NaN ∨ parseInt value = Num 0 → months = 0%Z)).
Proof.
  intros Hrun submitted. subst submitted.
  rewrite AuditForm_run_edit in Hrun by discriminate.
  split.
  - eapply (AuditForm_run_invariant
              (λ d, is_Some (ExtractedData.contract_duration_months d)));
      [| |exact Hrun].
    + apply List.Forall_forall. intros e _ d. apply handle_keeps_duration_set.
    + eexists. reflexivity.
  - intros Hlater. exists (js_or (parseInt value) 0). split.
    + eapply (AuditForm_run_invariant
                (λ d, ExtractedData.contract_duration_months d = _));
        [| |exact Hrun].
      * apply List.Forall_forall. intros e He d Hd.
        rewrite forallb_forall in Hlater. apply Hlater in He.
        rewrite handle_keeps_duration by (destruct (is_duration_edit e); done).
        exact Hd.
      * reflexivity.
    + split.
      * intros n -> Hn. simpl. destruct (Z.eqb_spec n 0); congruence.
      * intros [-> | ->]; reflexivity.
Qed.

Lemma duration_edit_is_never_unset_witness :
  let data := sample_data 12 "Chile" 30 in
  ∃ final cb,
    AuditForm_run false [Change in_duration "abc"; Click btn_save] data
    = (final, Some cb)
    ∧ ExtractedData.contract_duration_months (callback_data cb) = Some 0%Z.
Proof.
  intros data. eexists _, _. split; [reflexivity|].
  match goal with
  | |- ExtractedData.contract_duration_months (callback_data ?cb) = _ =>
      destruct (proj2 (duration_edit_is_never_unset "abc" data (callback_data cb)
                         [Click btn_save] cb eq_refl) eq_refl)
        as (months & Hsubmitted & _ & Hzero)
  end.
  rewrite Hsubmitted. f_equal. apply Hzero. left. reflexivity.
Defined.

Section ContractDetailFacts.

Lemma disabled_form_widgets formData w :
  In w (AuditForm_render formData true) → ∃ target, w = Input target true.
Proof.
  unfold AuditForm_render. rewrite !in_app_iff, in_flat_map.
  intros [(index & _ & Hw) | [Hw | Hw]]; simpl in Hw.
  - destruct Hw as [<-|[<-|[]]]; eauto.
  - destruct Hw as [<-|[<-|[<-|[<-|[]]]]]; eauto.
  - destruct Hw.
Qed.

(** Nothing can be done to a view that holds disabled inputs only. *)
Lemma disabled_view_accepts_nothing view e :
  (∀ w, In w view → ∃ target, w = Input target true) →
  enabled view e = false.
Proof.
  intros Hview. apply not_true_is_false. intros Hen.
  destruct e as [target value|b]; simpl in Hen;
    apply existsb_exists in Hen as (w & Hin & Hw);
    destruct (Hview w Hin) as [target' ->].
  - destruct target' as [i []| | | |], target as [j []| | | |];
      simpl in Hw; discriminate.
  - destruct b; simpl in Hw; discriminate.
Qed.

Lemma approved_view_widgets s c w :
  DetailState.contract s = Some c →
  Contract.human_approved c = true →
  In w (view_widgets (ContractDetail_render s)) →
  ∃ target, w = Input target true.
Proof.
  intros Hc Happroved. unfold ContractDetail_render. rewrite Hc.
  destruct (DetailState.loading s); [intros []|].
  destruct (truthy (DetailState.error s)); [intros []|].
  rewrite Happroved, orb_true_r. simpl.
  destruct (Contract.extracted_data c); [|intros []].
  destruct (DetailState.formData s) as [formData|]; [|intros []].
  apply disabled_form_widgets.
Qed.

End ContractDetailFacts.

(** C9.  Once the contract shown by the detail page has [human_approved]
    set, the page, when it is loaded, shows no error and holds extracted
    data, renders the audit form with every input disabled and without the
    Save and Approve buttons, next to the approval notice; every widget on
    screen is a disabled input, and no sequence of user events on the page
    changes its state or sends an update request. *)
Theorem human_approval_freezes_the_form
    (id : option string) (s : DetailState.t) (c : Contract.t) :
  DetailState.contract s = Some c →
  Contract.human_approved c = true →
  (∀ data formData,
     DetailState.loading s = false →
     truthy (DetailState.error s) = false →
     Contract.extracted_data c = Some data →
     DetailState.formData s = Some formData →
     ContractDetail_render s
     = view_page (statusConfig_label (Contract.status c))
         (Some
            (flat_map
               (λ index, [Input (in_party index pf_name) true;
                          Input (in_party index pf_role) true])
               (seq 0 (length (ExtractedData.parties formData)))
             ++ [Input in_effective_date true; Input in_duration true;
                 Input in_jurisdiction true; Input in_risk_score true])%list)
         true)
  ∧ (∀ w, In w (view_widgets (ContractDetail_render s)) →
          ∃ target, w = Input target true)
  ∧ (∀ events, ContractDetail_run id events s = (s, [])).
Proof.
  intros Hc Happroved. repeat apply conj.
  - intros data formData Hloading Herror Hdata Hform.
    unfold ContractDetail_render, AuditForm_render.
    rewrite Hloading, Hc, Herror, Hdata, Hform, Happroved, orb_true_r.
    cbn [negb]. rewrite app_nil_r. reflexivity.
  - intros w. exact (approved_view_widgets s c w Hc Happroved).
  - induction events as [|e rest IH]; [reflexivity|].
    cbn [ContractDetail_run]. unfold ContractDetail_step.
    rewrite (disabled_view_accepts_nothing _ e)
      by (intros w; exact (approved_view_widgets s c w Hc Happroved)).
    rewrite IH. reflexivity.
Qed.

Lemma human_approval_freezes_the_form_witness :
  let c := sample_contract "c-1" approved false true in
  let s := DetailState.mk (Some c) false None false None (Contract.extracted_data c) in
  ContractDetail_render s
  = view_page "Approved"
      (Some [Input (in_party 0 pf_name) true; Input (in_party 0 pf_role) true;
             Input in_effective_date true; Input in_duration true;
             Input in_jurisdiction true; Input in_risk_score true])
      true
  ∧ ContractDetail_run (Some "c-1")
      [Change in_risk_score "10"; Click btn_save; Click btn_approve] s
    = (s, []).
Proof.
  intros c s.
  destruct (human_approval_freezes_the_form (Some "c-1") s c eq_refl eq_refl)
    as (Hview & _ & Hrun).
  split; [|apply Hrun].
  exact (Hview (sample_data 12 "Chile" 30) (sample_data 12 "Chile" 30)
           eq_refl eq_refl eq_refl eq_refl).
Defined.

Section DashboardFacts.

Lemma status_eqb_eq a b : status_eqb a b = true ↔ a = b.
Proof. destruct a, b; simpl; split; (reflexivity || discriminate). Qed.

Lemma in_needsReview contracts c :
  In c (Dashboard.needsReview contracts)
  ↔ In c contracts ∧ Contract.requires_human_review c = true.
Proof. unfold Dashboard.needsReview. apply filter_In. Qed.

Lemma in_approved contracts c :
  In c (Dashboard.approved contracts)
  ↔ In c contracts ∧ Contract.status c = approved.
Proof.
  unfold Dashboard.approved. rewrite filter_In, status_eqb_eq. reflexivity.
Qed.

Lemma in_processing contracts c :
  In c (Dashboard.processing contracts)
  ↔ In c contracts ∧ Contract.status c = processing.
Proof.
  unfold Dashboard.processing. rewrite filter_In, status_eqb_eq. reflexivity.
Qed.

Lemma in_rejected contracts c :
  In c (Dashboard.rejected contracts)
  ↔ In c contracts ∧ Contract.status c = rejected.
Proof.
  unfold Dashboard.rejected. rewrite filter_In, status_eqb_eq. reflexivity.
Qed.

End DashboardFacts.

(** C10.  On the dashboard a listed contract whose [requires_human_review]
    flag is set and whose status is approved, processing or rejected is in
    the Needs Review category and in the category of its status (two
    categories at once, and not in the other two); a contract with status
    [requires_human_review] whose flag is not set is in none of the four. *)
Theorem dashboard_categories_overlap
    (contracts : list Contract.t) (c : Contract.t) :
  In c contracts →
  (Contract.requires_human_review c = true →
     (Contract.status c = approved →
        In c (Dashboard.needsReview contracts) ∧ In c (Dashboard.approved contracts)
        ∧ ¬ In c (Dashboard.processing contracts)
        ∧ ¬ In c (Dashboard.rejected contracts))
     ∧ (Contract.status c = processing →
        In c (Dashboard.needsReview contracts) ∧ In c (Dashboard.processing contracts)
        ∧ ¬ In c (Dashboard.approved contracts)
        ∧ ¬ In c (Dashboard.rejected contracts))
     ∧ (Contract.status c = rejected →
        In c (Dashboard.needsReview contracts) ∧ In c (Dashboard.rejected contracts)
        ∧ ¬ In c (Dashboard.approved contracts)
        ∧ ¬ In c (Dashboard.processing contracts)))
  ∧ (Contract.status c = requires_human_review →
     Contract.requires_human_review c = false →
     ¬ In c (Dashboard.needsReview contracts)
     ∧ ¬ In c (Dashboard.approved contracts)
     ∧ ¬ In c (Dashboard.processing contracts)
     ∧ ¬ In c (Dashboard.rejected contracts)).
Proof.
  intros Hin.
  rewrite in_needsReview, in_approved, in_processing, in_rejected.
  split.
  - intros Hflag. repeat split; try assumption; intros [_ Hs]; congruence.
  - intros Hstatus Hflag. repeat split; intros [_ Hs]; congruence.
Qed.

Lemma dashboard_categories_overlap_witness :
  let flagged := sample_contract "c-1" approved true false in
  let unflagged := sample_contract "c-2" requires_human_review false false in
  let contracts := [flagged; unflagged] in
  In flagged (Dashboard.needsReview contracts)
  ∧ In flagged (Dashboard.approved contracts)
  ∧ ¬ In unflagged (Dashboard.needsReview contracts)
  ∧ Dashboard.stats contracts = (1, 1, 0, 0).
Proof.
  intros flagged unflagged contracts.
  pose proof (dashboard_categories_overlap contracts flagged
                (or_introl eq_refl)) as [Htwo _].
  pose proof (dashboard_categories_overlap contracts unflagged
                (or_intror (or_introl eq_refl))) as [_ Hnone].
  destruct (Htwo eq_refl) as [Happroved _].
  destruct (Happroved eq_refl) as (Hreview & Hlisted & _).
  destruct (Hnone eq_refl eq_refl) as (Hnot & _).
  repeat split; assumption || reflexivity.
Defined.

(** * Properties of the audit core *)

Section RuleEngineFacts.

Variable cfg : Config.t.
Implicit Types (data : ExtractedData.t) (table : list Rule.t).

(** The engine in closed form: the issues and reasons of the matching
    rules, in table order. *)
Lemma fold_apply_rule data table acc :
  fold_left (apply_rule data) table acc
  = ValidationResult.mk
      (ValidationResult.issues acc
       ++ List.map issue_of (List.filter (λ r, Rule.predicate r data) table))
      (ValidationResult.requires_human_review acc
       || existsb (λ r, Rule.predicate r data) table)
      (ValidationResult.review_reasons acc
       ++ flat_map (λ r, option_list (Rule.review_reason r))
            (List.filter (λ r, Rule.predicate r data) table)).
Proof.
  revert acc. induction table as [|r table IH]; intros acc; simpl.
  - rewrite !app_nil_r, orb_false_r. destruct acc; reflexivity.
  - rewrite IH. unfold apply_rule.
    destruct (Rule.predicate r data); simpl.
    + rewrite <- !app_assoc, orb_true_r. reflexivity.
    + reflexivity.
Qed.

Lemma RuleValidationEngine_closed_form table data :
  RuleValidationEngine table data
  = ValidationResult.mk
      (List.map issue_of (List.filter (λ r, Rule.predicate r data) table))
      (existsb (λ r, Rule.predicate r data) table)
      (flat_map (λ r, option_list (Rule.review_reason r))
         (List.filter (λ r, Rule.predicate r data) table)).
Proof. unfold RuleValidationEngine. rewrite fold_apply_rule. reflexivity. Qed.

Lemma validate_clean data :
  excessive_duration data = false →
  foreign_jurisdiction (Config.reference_jurisdiction cfg) data = false →
  high_risk data = false →
  validate cfg data = ValidationResult.mk [] false [].
Proof.
  intros Hduration Hjurisdiction Hrisk.
  unfold validate, RuleValidationEngine, baseline_rules, apply_rule. simpl.
  rewrite Hduration, Hjurisdiction, Hrisk. reflexivity.
Qed.

Lemma baseline_issue_origin data i :
  In i (ValidationResult.issues (validate cfg data)) →
  ∃ r, In r (baseline_rules cfg) ∧ i = issue_of r ∧ Rule.predicate r data = true.
Proof.
  unfold validate. rewrite RuleValidationEngine_closed_form.
  cbn [ValidationResult.issues]. rewrite in_map_iff. intros (r & <- & Hr).
  apply filter_In in Hr as [Hr Hmatch]. eauto.
Qed.

Lemma high_risk_verdict data :
  has_issue "high_risk" (validate cfg data) = high_risk data
  ∧ has_reason "high risk" (validate cfg data) = high_risk data
  ∧ (high_risk data = true →
     ValidationResult.requires_human_review (validate cfg data) = true).
Proof.
  unfold validate, RuleValidationEngine, baseline_rules, apply_rule.
  cbn [fold_left Rule.predicate].
  destruct (excessive_duration data),
    (foreign_jurisdiction (Config.reference_jurisdiction cfg) data),
    (high_risk data); cbn; auto.
Qed.

Lemma below_threshold_met confidence :
  (Config.confidence_threshold cfg <= confidence)%Q →
  below_threshold cfg confidence = false.
Proof.
  intros Hle. unfold below_threshold.
  apply Qle_bool_iff in Hle. rewrite Hle. reflexivity.
Qed.


Lemma pipeline_status validation confidence :
  advance cfg (advance cfg pending PipelineStart)
    (ExtractionDone validation confidence)
  = if needs_review cfg validation confidence
    then requires_human_review else approved.
Proof.
  change (advance cfg pending PipelineStart) with processing.
  unfold advance, transition.
  destruct (needs_review cfg validation confidence); reflexivity.
Qed.

Lemma advance_HumanSave s validation :
  advance cfg s (HumanSave validation) = s.
Proof. destruct s; reflexivity. Qed.

Lemma unset_means_none {A} (o : option A) :
  bool_decide (is_Some o) = false → o = None.
Proof.
  intros Hunset. apply bool_decide_eq_false in Hunset.
  destruct o; [|reflexivity]. exfalso. apply Hunset. eauto.
Qed.

End RuleEngineFacts.

(** Unfolds a validation run on the baseline table down to the three
    predicates. *)
Ltac unfold_validate :=
  unfold validate, RuleValidationEngine, baseline_rules, apply_rule;
  cbn [fold_left Rule.predicate Rule.review_reason Rule.id Rule.field
       Rule.severity Rule.message issue_of option_list
       ValidationResult.issues ValidationResult.review_reasons
       ValidationResult.requires_human_review].

(** C4.  The [high_risk] rule reports an issue exactly when the risk score
    is above 70: none at 70, one at 71; its issue has severity error and
    comes with the review reason "high risk".  The risk meter of the form
    turns to High Risk at the same boundary. *)
Theorem high_risk_fires_above_70 (cfg : Config.t) (data : ExtractedData.t) :
  let result := validate cfg data in
  (has_issue "high_risk" result = true ↔ (70 < ExtractedData.risk_score data)%Z)
  ∧ (has_reason "high risk" result = true ↔ (70 < ExtractedData.risk_score data)%Z)
  ∧ (∀ i, In i (ValidationResult.issues result) →
          ValidationIssue.rule i = "high_risk" →
          ValidationIssue.severity i = error
          ∧ ValidationIssue.field i = "risk_score")
  ∧ (ExtractedData.risk_score data = 70%Z → has_issue "high_risk" result = false)
  ∧ (ExtractedData.risk_score data = 71%Z →
     has_issue "high_risk" result = true
     ∧ ValidationResult.requires_human_review result = true)
  ∧ risk_label 70 = "Medium Risk"
  ∧ risk_label 71 = "High Risk".
Proof.
  intros result. subst result.
  destruct (high_risk_verdict cfg data) as (Hissue & Hreason & Hreview).
  rewrite Hissue, Hreason. unfold high_risk in *.
  repeat apply conj; try reflexivity; try (intros; lia).
  - intros i Hin Hrule.
    destruct (baseline_issue_origin cfg data i Hin) as (r & Hr & -> & _).
    destruct Hr as [<-|[<-|[<-|[]]]]; cbn in Hrule; try discriminate.
    split; reflexivity.
  - intros Hrisk. rewrite Hrisk in *. split; [reflexivity|].
    apply Hreview. reflexivity.
Qed.

(** C7.  A rule of the baseline table whose governing field is unset does
    not match and adds neither an issue nor its review reason; so an unset
    jurisdiction never yields [foreign_jurisdiction] and an unset duration
    never yields [excessive_duration]. *)
Theorem unset_field_never_matches (cfg : Config.t) (data : ExtractedData.t) :
  (∀ r, In r (baseline_rules cfg) →
        field_is_set (Rule.field r) data = false →
        Rule.predicate r data = false
        ∧ has_issue (Rule.id r) (validate cfg data) = false
        ∧ (∀ reason, Rule.review_reason r = Some reason →
                     has_reason reason (validate cfg data) = false))
  ∧ (ExtractedData.jurisdiction data = None →
     has_issue "foreign_jurisdiction" (validate cfg data) = false
     ∧ has_reason "foreign jurisdiction" (validate cfg data) = false)
  ∧ (ExtractedData.contract_duration_months data = None →
     has_issue "excessive_duration" (validate cfg data) = false
     ∧ has_reason "excessive duration" (validate cfg data) = false).
Proof.
  assert (Hjurisdiction : ExtractedData.jurisdiction data = None →
            foreign_jurisdiction (Config.reference_jurisdiction cfg) data = false
            ∧ has_issue "foreign_jurisdiction" (validate cfg data) = false
            ∧ has_reason "foreign jurisdiction" (validate cfg data) = false).
  { intros Hnone. unfold_validate. unfold foreign_jurisdiction. rewrite Hnone.
    destruct (excessive_duration data), (high_risk data); cbn; auto. }
  assert (Hduration : ExtractedData.contract_duration_months data = None →
            excessive_duration data = false
            ∧ has_issue "excessive_duration" (validate cfg data) = false
            ∧ has_reason "excessive duration" (validate cfg data) = false).
  { intros Hnone. unfold_validate. unfold excessive_duration. rewrite Hnone.
    destruct (foreign_jurisdiction _ data), (high_risk data); cbn; auto. }
  split; [|split; [intros H; apply Hjurisdiction, H | intros H; apply Hduration, H]].
  intros r [<-|[<-|[<-|[]]]] Hunset; cbn in Hunset.
  - apply unset_means_none in Hunset.
    destruct (Hduration Hunset) as (Hp & Hi & Hr).
    repeat split; try assumption. intros reason [= <-]. exact Hr.
  - apply unset_means_none in Hunset.
    destruct (Hjurisdiction Hunset) as (Hp & Hi & Hr).
    repeat split; try assumption. intros reason [= <-]. exact Hr.
  - discriminate.
Qed.

(** C1.  Data with a duration of at most 24 months, the reference
    jurisdiction and a risk score of at most 70 yields no issue; when in
    addition the extraction confidence reaches the configured threshold,
    the lifecycle moves the contract from processing to approved, and so
    does the whole audit pipeline. *)
Theorem clean_contract_is_approved
    (cfg : Config.t) (data : ExtractedData.t) (months : Z) (confidence : Q) :
  ExtractedData.contract_duration_months data = Some months →
  (months ≤ 24)%Z →
  ExtractedData.jurisdiction data = Some (Config.reference_jurisdiction cfg) →
  (ExtractedData.risk_score data ≤ 70)%Z →
  ValidationResult.issues (validate cfg data) = []
  ∧ ((Config.confidence_threshold cfg <= confidence)%Q →
     transition cfg processing (ExtractionDone (validate cfg data) confidence)
     = Some approved
     ∧ ∀ col new_id now documentBytes fileName store text,
         Collaborators.extract col documentBytes = Some text →
         StructuredExtractor cfg col (truncate cfg text) = (data, confidence) →
         ∃ c,
           audit cfg col new_id now documentBytes fileName store
           = inr (c, <[new_id := c]> store)
           ∧ Contract.status c = approved
           ∧ Contract.extracted_data c = Some data
           ∧ Contract.validation_issues c = []
           ∧ Contract.requires_human_review c = false).
Proof.
  intros Hmonths Hle Hjurisdiction Hrisk.
  assert (Hclean : validate cfg data = ValidationResult.mk [] false []).
  { apply validate_clean.
    - unfold excessive_duration. rewrite Hmonths. apply Z.ltb_ge. exact Hle.
    - unfold foreign_jurisdiction. rewrite Hjurisdiction, String.eqb_refl.
      reflexivity.
    - unfold high_risk. apply Z.ltb_ge. exact Hrisk. }
  rewrite Hclean. split; [reflexivity|]. intros Hconfidence.
  assert (Hreview : needs_review cfg (ValidationResult.mk [] false []) confidence
                    = false).
  { unfold needs_review. rewrite below_threshold_met by exact Hconfidence.
    reflexivity. }
  split.
  - unfold transition. rewrite Hreview. reflexivity.
  - intros col new_id now documentBytes fileName store text Hextract Hrun.
    unfold audit. rewrite Hextract, Hrun, Hclean.
    eexists. split; [reflexivity|].
    cbn [Contract.status Contract.extracted_data Contract.validation_issues
         Contract.requires_human_review ValidationResult.issues].
    rewrite pipeline_status, Hreview. repeat split; reflexivity.
Qed.

Lemma clean_contract_is_approved_witness :
  let data := sample_data 12 "Chile" 30 in
  ValidationResult.issues (validate sample_config data) = []
  ∧ transition sample_config processing
      (ExtractionDone (validate sample_config data) 1%Q)
    = Some approved.
Proof.
  intros data.
  destruct (clean_contract_is_approved sample_config data 12 1%Q
              eq_refl ltac:(lia) eq_refl ltac:(simpl; lia))
    as [Hissues Hlifecycle].
  split; [exact Hissues|].
  apply Hlifecycle. discriminate.
Defined.




Section CorrectionFacts.

Variable cfg : Config.t.

Lemma save_result id data store c :
  store !! id = Some c →
  save cfg id data store
  = Some (Contract.mk (Contract.id c) (Contract.file_name c) (Contract.status c)
            (Contract.created_at c) (Contract.processed_at c) (Some data)
            (ValidationResult.issues (validate cfg data))
            (ValidationResult.requires_human_review (validate cfg data))
            (ValidationResult.review_reasons (validate cfg data))
            (Contract.confidence_score c) (Contract.human_approved c),
          <[id := Contract.mk (Contract.id c) (Contract.file_name c)
                    (Contract.status c) (Contract.created_at c)
                    (Contract.processed_at c) (Some data)
                    (ValidationResult.issues (validate cfg data))
                    (ValidationResult.requires_human_review (validate cfg data))
                    (ValidationResult.review_reasons (validate cfg data))
                    (Contract.confidence_score c) (Contract.human_approved c)]>
            store).
Proof. intros Hc. unfold save. rewrite Hc, advance_HumanSave. reflexivity. Qed.

Lemma result_eta (r : ValidationResult.t) :
  ValidationResult.mk (ValidationResult.issues r)
    (ValidationResult.requires_human_review r)
    (ValidationResult.review_reasons r) = r.
Proof. destruct r. reflexivity. Qed.

End CorrectionFacts.

(** C6.  A save, that is an update sent with [humanApproved = false] as the
    Save button of the detail page does, replaces the stored issues,
    reasons and review verdict by those of the re-validation of the
    submitted data and stores that data; the status and [human_approved]
    of the contract stay as they were. *)
Theorem save_leaves_status_unchanged
    (cfg : Config.t) (now id : string) (data : ExtractedData.t)
    (store : gmap string Contract.t) (c : Contract.t) :
  store !! id = Some c →
  ∃ c',
    serve cfg now (contractsApi_update id data false None) store
    = Some (c', <[id := c']> store)
    ∧ stored_validation c' = validate cfg data
    ∧ Contract.extracted_data c' = Some data
    ∧ Contract.status c' = Contract.status c
    ∧ Contract.human_approved c' = Contract.human_approved c
    ∧ Contract.processed_at c' = Contract.processed_at c
    ∧ (∀ s, truthy (Some id) = true →
            (handleSave (Some id) data s).2
            = [contractsApi_update id data false None]).
Proof.
  intros Hc. eexists. split.
  - unfold serve, contractsApi_update, update.
    cbn [UpdateRequest.extracted_data UpdateRequest.human_approved
         UpdateRequest.reviewer_notes].
    apply (save_result cfg id data store c Hc).
  - repeat apply conj; try reflexivity.
    + apply result_eta.
    + intros s Hid. unfold handleSave. rewrite Hid. reflexivity.
Qed.

Lemma save_leaves_status_unchanged_witness :
  let c := sample_contract "c-1" requires_human_review true false in
  let store : gmap string Contract.t := {[ "c-1" := c ]} in
  ∃ c',
    serve sample_config "2024-02-01T00:00:00Z"
      (contractsApi_update "c-1" (sample_data 36 "Chile" 30) false None) store
    = Some (c', <["c-1" := c']> store)
    ∧ Contract.status c' = requires_human_review
    ∧ Contract.human_approved c' = false.
Proof.
  intros c store.
  destruct (save_leaves_status_unchanged sample_config "2024-02-01T00:00:00Z"
              "c-1" (sample_data 36 "Chile" 30) store c
              (lookup_singleton_eq _ _))
    as (c' & Hserve & _ & _ & Hstatus & Happroved & _).
  exists c'. repeat split; assumption.
Defined.


(** * Further properties of the review front end *)

(** X1.  The error shown under a form field is the first issue of the
    list that names the field: every issue before it names another field,
    and no error is shown exactly when no issue names the field. *)
Theorem getFieldError_is_first_match
    (validationIssues : list ValidationIssue.t) (fieldName : string) :
  match getFieldError validationIssues fieldName with
  | Some issue =>
      ∃ before after : list ValidationIssue.t,
        validationIssues = (before ++ issue :: after)%list
        ∧ ValidationIssue.field issue = fieldName
        ∧ Forall (λ other, ValidationIssue.field other ≠ fieldName) before
  | None =>
      Forall (λ other, ValidationIssue.field other ≠ fieldName) validationIssues
  end.
Proof.
  unfold getFieldError.
  induction validationIssues as [|first rest IH]; simpl; [constructor|].
  destruct (String.eqb_spec (ValidationIssue.field first) fieldName) as [Heq|Hne].
  - exists [], rest. repeat split; [exact Heq|constructor].
  - destruct (find _ rest) as [issue|].
    + destruct IH as (before & after & -> & Hfield & Hbefore).
      exists (first :: before), after. repeat split; [exact Hfield|].
      constructor; assumption.
    + constructor; assumption.
Qed.

(** X2.  Whatever issue the form displays under a field is one of the
    validation issues and names that field, and the field is one of the
    four the form renders with an error slot; issues on any other field
    are displayed by no field of the form. *)
Theorem AuditForm_errors_sound
    (validationIssues : list ValidationIssue.t) (fieldName : string)
    (issue : ValidationIssue.t) :
  In (fieldName, Some issue) (AuditForm_errors validationIssues) →
  In issue validationIssues
  ∧ ValidationIssue.field issue = fieldName
  ∧ In fieldName
      ["effective_date"; "contract_duration_months"; "jurisdiction"; "risk_score"].
Proof.
  unfold AuditForm_errors. rewrite in_map_iff.
  intros (name & [= <- Hfound] & Hname).
  unfold getFieldError in Hfound. apply find_some in Hfound as [Hin Hfield].
  apply String.eqb_eq in Hfield. auto.
Qed.

Lemma AuditForm_errors_sound_witness :
  let on_risk := ValidationIssue.mk "risk_score" "high_risk" "too risky" error None in
  let on_parties := ValidationIssue.mk "parties" "no_parties" "no party" warning None in
  In ("risk_score", Some on_risk) (AuditForm_errors [on_parties; on_risk])
  ∧ ValidationIssue.field on_risk = "risk_score".
Proof.
  intros on_risk on_parties.
  assert (Hshown : In ("risk_score", Some on_risk)
                     (AuditForm_errors [on_parties; on_risk])).
  { right. right. right. left. reflexivity. }
  split; [exact Hshown|].
  exact (proj1 (proj2 (AuditForm_errors_sound _ _ _ Hshown))).
Defined.

Section AuditFormFrame.

Implicit Types (formData : ExtractedData.t) (e : UserEvent).

Lemma handle_keeps_raw e formData :
  ExtractedData.contract_duration_raw (AuditForm_handle e formData).1
  = ExtractedData.contract_duration_raw formData.
Proof. destruct e as [[i f| | | |] value|[]]; reflexivity. Qed.

Lemma handle_keeps_party_count e formData :
  length (ExtractedData.parties (AuditForm_handle e formData).1)
  = length (ExtractedData.parties formData).
Proof.
  destruct e as [[i f| | | |] value|[]]; try reflexivity.
  simpl. apply length_alter.
Qed.

Lemma handle_keeps_set e formData :
  (is_Some (ExtractedData.effective_date formData) →
   is_Some (ExtractedData.effective_date (AuditForm_handle e formData).1))
  ∧ (is_Some (ExtractedData.jurisdiction formData) →
     is_Some (ExtractedData.jurisdiction (AuditForm_handle e formData).1)).
Proof.
  destruct e as [[i f| | | |] value|[]]; simpl; split; intros Hset;
    try exact Hset; eexists; reflexivity.
Qed.

Lemma handle_keeps_text_field target e formData :
  is_edit_of target e = false →
  text_field target (AuditForm_handle e formData).1 = text_field target formData.
Proof.
  destruct target as [j g| | | |], e as [[i f| | | |] value|[]]; simpl; congruence.
Qed.

(** A run that fires a callback hands over the edits it applied. *)
Lemma AuditForm_run_all (P : ExtractedData.t → Prop) disabled events :
  (∀ e d, P d → P (AuditForm_handle e d).1) →
  ∀ formData final cb,
    P formData →
    AuditForm_run disabled events formData = (final, Some cb) →
    P (callback_data cb).
Proof.
  intros Hkeep formData final cb. apply AuditForm_run_invariant.
  apply List.Forall_forall. intros e _. apply Hkeep.
Qed.

End AuditFormFrame.

(** X3.  No sequence of events on the form changes the original duration
    phrase or the number of parties, and none unsets an effective date, a
    duration or a jurisdiction that was set: what Save or Approve submits
    agrees with the initial form data on all of these. *)
Theorem AuditForm_never_drops_data
    (disabled : bool) (events : list UserEvent)
    (formData final : ExtractedData.t) (cb : Callback) :
  AuditForm_run disabled events formData = (final, Some cb) →
  let submitted := callback_data cb in
  ExtractedData.contract_duration_raw submitted
  = ExtractedData.contract_duration_raw formData
  ∧ length (ExtractedData.parties submitted)
    = length (ExtractedData.parties formData)
  ∧ (is_Some (ExtractedData.effective_date formData) →
     is_Some (ExtractedData.effective_date submitted))
  ∧ (is_Some (ExtractedData.contract_duration_months formData) →
     is_Some (ExtractedData.contract_duration_months submitted))
  ∧ (is_Some (ExtractedData.jurisdiction formData) →
     is_Some (ExtractedData.jurisdiction submitted)).
Proof.
  intros Hrun submitted. subst submitted. repeat apply conj.
  - eapply (AuditForm_run_all (λ d, ExtractedData.contract_duration_raw d = _));
      [| |exact Hrun]; [|reflexivity].
    intros e d <-. apply handle_keeps_raw.
  - eapply (AuditForm_run_all (λ d, length (ExtractedData.parties d) = _));
      [| |exact Hrun]; [|reflexivity].
    intros e d <-. apply handle_keeps_party_count.
  - intros Hset.
    eapply (AuditForm_run_all (λ d, is_Some (ExtractedData.effective_date d)));
      [| |exact Hrun]; [|exact Hset].
    intros e d. apply handle_keeps_set.
  - intros Hset.
    eapply (AuditForm_run_all
              (λ d, is_Some (ExtractedData.contract_duration_months d)));
      [| |exact Hrun]; [|exact Hset].
    intros e d. apply handle_keeps_duration_set.
  - intros Hset.
    eapply (AuditForm_run_all (λ d, is_Some (ExtractedData.jurisdiction d)));
      [| |exact Hrun]; [|exact Hset].
    intros e d. apply handle_keeps_set.
Qed.

Lemma AuditForm_never_drops_data_witness :
  let data := sample_data 12 "Chile" 30 in
  let events := [Change (in_party 0 pf_role) "client"; Change in_jurisdiction "Peru";
                 Click btn_save] in
  ∃ final cb,
    AuditForm_run false events data = (final, Some cb)
    ∧ ExtractedData.contract_duration_raw (callback_data cb)
      = Some "a term in months"
    ∧ length (ExtractedData.parties (callback_data cb)) = 1.
Proof.
  intros data events. eexists _, _. split; [reflexivity|].
  match goal with
  | |- context [callback_data ?cb] =>
      destruct (AuditForm_never_drops_data false events data (callback_data cb)
                  cb eq_refl) as (Hraw & Hparties & _)
  end.
  split; [exact Hraw|exact Hparties].
Defined.

(** X4.  Text delivered by the effective-date or the jurisdiction input is
    stored as it is, the empty text included: it is given back to the
    input as its value, and a later Save or Approve submits the field set
    to that text (an input that was cleared submits the empty string, not
    an unset field), unless the same input is edited again in between. *)
Theorem text_edit_is_stored_verbatim
    (target : FormInput) (value : string) (formData final : ExtractedData.t)
    (later : list UserEvent) (cb : Callback) :
  target = in_effective_date ∨ target = in_jurisdiction →
  forallb (λ e, negb (is_edit_of target e)) later = true →
  AuditForm_run false (Change target value :: later) formData = (final, Some cb) →
  AuditForm_value target (input_onChange target value formData) = value
  ∧ text_field target (callback_data cb) = Some value.
Proof.
  intros Htarget Hlater Hrun.
  rewrite AuditForm_run_edit in Hrun by (destruct Htarget; subst; discriminate).
  split; [destruct Htarget; subst; reflexivity|].
  eapply (AuditForm_run_invariant (λ d, text_field target d = Some value));
    [| |exact Hrun].
  - apply List.Forall_forall. intros e He d Hd.
    rewrite forallb_forall in Hlater. apply Hlater in He.
    rewrite handle_keeps_text_field by (destruct (is_edit_of target e); done).
    exact Hd.
  - destruct Htarget; subst; reflexivity.
Qed.

Lemma text_edit_is_stored_verbatim_witness :
  let data := sample_data 12 "Chile" 30 in
  let later := [Change in_risk_score "20"; Click btn_save] in
  ∃ final cb,
    AuditForm_run false (Change in_jurisdiction EmptyString :: later) data
    = (final, Some cb)
    ∧ ExtractedData.jurisdiction (callback_data cb) = Some EmptyString.
Proof.
  intros data later. eexists _, _. split; [reflexivity|].
  match goal with
  | |- context [callback_data ?cb] =>
      exact (proj2 (text_edit_is_stored_verbatim in_jurisdiction EmptyString data
                      (callback_data cb) later cb (or_intror eq_refl)
                      eq_refl eq_refl))
  end.
Defined.

(** X5.  Editing a field of the party at a position that exists changes
    that field of that party only: the other parties, the number of
    parties and every other field of the form data stay as they were, and
    the edited input is given the typed text as its value. *)
Theorem handlePartyChange_is_local
    (index : nat) (f : PartyField) (value : string)
    (formData : ExtractedData.t) (party : Party.t) :
  ExtractedData.parties formData !! index = Some party →
  let formData' := handlePartyChange index f value formData in
  ExtractedData.parties formData' !! index = Some (set_party_field f value party)
  ∧ (∀ other, other ≠ index →
       ExtractedData.parties formData' !! other
       = ExtractedData.parties formData !! other)
  ∧ length (ExtractedData.parties formData')
    = length (ExtractedData.parties formData)
  ∧ (match f with
     | pf_name => Party.role (set_party_field f value party) = Party.role party
     | pf_role => Party.name (set_party_field f value party) = Party.name party
     end)
  ∧ AuditForm_value (in_party index f) formData' = value
  ∧ ExtractedData.mk (ExtractedData.parties formData)
      (ExtractedData.effective_date formData')
      (ExtractedData.contract_duration_months formData')
      (ExtractedData.contract_duration_raw formData')
      (ExtractedData.jurisdiction formData')
      (ExtractedData.risk_score formData')
    = formData.
Proof.
  intros Hparty formData'. subst formData'. unfold handlePartyChange.
  cbn [ExtractedData.parties ExtractedData.effective_date
       ExtractedData.contract_duration_months ExtractedData.contract_duration_raw
       ExtractedData.jurisdiction ExtractedData.risk_score].
  assert (Hnew : alter (set_party_field f value) index
                   (ExtractedData.parties formData) !! index
                 = Some (set_party_field f value party)).
  { rewrite list_lookup_alter_eq, Hparty. reflexivity. }
  repeat apply conj.
  - exact Hnew.
  - intros other Hother. apply list_lookup_alter_ne. congruence.
  - apply length_alter.
  - destruct f; reflexivity.
  - destruct f; cbn [AuditForm_value ExtractedData.parties]; rewrite Hnew;
      reflexivity.
  - destruct formData. reflexivity.
Qed.

Lemma handlePartyChange_is_local_witness :
  let data := sample_data 12 "Chile" 30 in
  ExtractedData.parties (handlePartyChange 0 pf_name "Beta Ltda" data) !! 0
  = Some (Party.mk "Beta Ltda" (Some "provider")).
Proof.
  intros data.
  exact (proj1 (handlePartyChange_is_local 0 pf_name "Beta Ltda" data
                  (Party.mk "Acme SpA" (Some "provider")) eq_refl)).
Defined.

Section DecimalRoundTrip.

Lemma parse_digits_string_of_uint u a :
  parse_digits 10 (NilEmpty.string_of_uint u) (Some a) = Some (uint_value u a).
Proof.
  revert a. induction u; intros a;
    cbn [NilEmpty.string_of_uint parse_digits uint_value];
    [reflexivity|..]; apply IHu.
Qed.

Lemma uint_value_pos u acc :
  uint_value u (Z.pos acc) = Z.pos (Pos.of_uint_acc u acc).
Proof.
  revert acc. induction u; intros acc; cbn [uint_value Pos.of_uint_acc];
    [reflexivity|..]; rewrite <- IHu; f_equal; lia.
Qed.

Lemma uint_value_zero u : uint_value u 0 = Z.of_N (Pos.of_uint u).
Proof.
  induction u; cbn [uint_value Pos.of_uint]; [reflexivity|exact IHu|..];
    apply (uint_value_pos u).
Qed.

Lemma parse_digits_nonempty u :
  u ≠ Decimal.Nil →
  parse_digits 10 (NilEmpty.string_of_uint u) None = Some (uint_value u 0).
Proof.
  destruct u; [congruence|..]; intros _;
    apply (parse_digits_string_of_uint u).
Qed.

Lemma digits_have_no_prefix u :
  trim_start (NilEmpty.string_of_uint u) = NilEmpty.string_of_uint u
  ∧ strip_sign (NilEmpty.string_of_uint u) = (1%Z, NilEmpty.string_of_uint u)
  ∧ strip_hex_prefix (NilEmpty.string_of_uint u)
    = (10%Z, NilEmpty.string_of_uint u).
Proof.
  destruct u as [|u|u|u|u|u|u|u|u|u|u]; repeat split; try reflexivity.
  destruct u; reflexivity.
Qed.

Lemma parse_digits_decimal p :
  parse_digits 10 (NilEmpty.string_of_uint (Pos.to_uint p)) None = Some (Z.pos p).
Proof.
  rewrite parse_digits_nonempty, uint_value_zero, Unsigned.of_to; [reflexivity|].
  intros Hnil. pose proof (Unsigned.of_to p) as Hp. rewrite Hnil in Hp.
  discriminate.
Qed.

(** A safe integer is its own Number value. *)
Lemma to_double_safe z :
  (Z.abs z ≤ MAX_SAFE_INTEGER)%Z → to_double z = z.
Proof.
  unfold MAX_SAFE_INTEGER, to_double. intros Hsafe.
  destruct (Z.leb_spec (Z.abs z) (2 ^ 53)); [reflexivity|lia].
Qed.

(** Reading back the digits the DOM shows for a safe integer gives the
    integer. *)
Lemma parseInt_js_number_to_string n :
  (Z.abs n ≤ MAX_SAFE_INTEGER)%Z → parseInt (js_number_to_string n) = Num n.
Proof.
  intros Hsafe. unfold js_number_to_string.
  destruct n as [|p|p]; [reflexivity|..]; cbn [Z.to_int NilEmpty.string_of_int].
  - unfold parseInt.
    destruct (digits_have_no_prefix (Pos.to_uint p)) as (-> & -> & ->).
    rewrite parse_digits_decimal. f_equal. apply to_double_safe. exact Hsafe.
  - assert (Hminus : ∀ s,
              parseInt (String "-" s)
              = let (R, digits) := strip_hex_prefix s in
                match parse_digits R digits None with
                | Some m => Num (to_double (-1 * m))
                | None => NaN
                end) by reflexivity.
    rewrite Hminus.
    destruct (digits_have_no_prefix (Pos.to_uint p)) as (_ & _ & ->).
    rewrite parse_digits_decimal. f_equal. apply to_double_safe. exact Hsafe.
Qed.

(** Beyond the safe integers [parseInt] rounds as the runtime does. *)
Lemma parseInt_rounds_to_double :
  parseInt "9007199254740993" = Num 9007199254740992
  ∧ parseInt "9007199254740995" = Num 9007199254740996
  ∧ parseInt "-9007199254740993" = Num (-9007199254740992)
  ∧ parseInt "9007199254740992" = Num 9007199254740992
  ∧ ExtractedData.contract_duration_months
      (duration_onChange "9007199254740993" (sample_data 12 "Chile" 30))
    = Some 9007199254740992%Z.
Proof. repeat split; reflexivity. Qed.

End DecimalRoundTrip.

Section DisplayFacts.

Lemma js_or_zero_id n : js_or (Num n) 0 = n.
Proof. simpl. destruct (Z.eqb_spec n 0); congruence. Qed.

Lemma submitted_duration value formData final later cb :
  forallb (λ e, negb (is_duration_edit e)) later = true →
  AuditForm_run false (Change in_duration value :: later) formData
  = (final, Some cb) →
  ExtractedData.contract_duration_months (callback_data cb)
  = Some (js_or (parseInt value) 0).
Proof.
  intros Hlater Hrun. rewrite AuditForm_run_edit in Hrun by discriminate.
  eapply (AuditForm_run_invariant
            (λ d, ExtractedData.contract_duration_months d = _));
    [| |exact Hrun]; [|reflexivity].
  apply List.Forall_forall. intros e He d Hd.
  rewrite forallb_forall in Hlater. apply Hlater in He.
  rewrite handle_keeps_duration by (destruct (is_duration_edit e); done).
  exact Hd.
Qed.

End DisplayFacts.

(** X6.  For the duration, jurisdiction and risk-score inputs, typing back
    exactly the value the input is given leaves the form data unchanged if
    and only if the field holds a value the input can take: an optional
    field that is set, or a risk score between 1 and 100.  For an unset
    field the input is given the empty text, and typing that back sets the
    field. *)
Theorem retyping_displayed_value
    (target : FormInput) (formData : ExtractedData.t) :
  target = in_duration ∨ target = in_jurisdiction ∨ target = in_risk_score →
  safe_numbers formData →
  input_onChange target (AuditForm_value target formData) formData = formData
  ↔ retypable target formData = true.
Proof.
  intros Htarget [Hrisk Hmonths].
  destruct formData as [parties date months raw place risk].
  cbn [ExtractedData.risk_score ExtractedData.contract_duration_months]
    in Hrisk, Hmonths.
  destruct Htarget as [->|[->| ->]];
    cbn [input_onChange AuditForm_value retypable handleChange duration_onChange
         risk_score_onChange ExtractedData.parties ExtractedData.effective_date
         ExtractedData.contract_duration_months
         ExtractedData.contract_duration_raw ExtractedData.jurisdiction
         ExtractedData.risk_score].
  - destruct months as [n|]; cbn [from_option].
    + rewrite parseInt_js_number_to_string, js_or_zero_id
        by (apply Hmonths; reflexivity).
      split; intros; reflexivity.
    + split; intros H; discriminate H.
  - destruct place; simpl; split; intros H; reflexivity || discriminate H.
  - rewrite parseInt_js_number_to_string by exact Hrisk.
    assert (Hclamp : Z.min 100 (Z.max 1 (js_or (Num risk) 1)) = risk
                     ↔ (1 ≤ risk ≤ 100)%Z).
    { simpl. destruct (Z.eqb_spec risk 0); lia. }
    rewrite andb_true_iff, !Z.leb_le, <- Hclamp.
    split; [intros [= H]; exact H | intros H; f_equal; exact H].
Qed.

Lemma retyping_displayed_value_witness :
  let data := sample_data 12 "Chile" 30 in
  input_onChange in_duration (AuditForm_value in_duration data) data = data
  ∧ AuditForm_value in_duration data = "12".
Proof.
  intros data. split; [|reflexivity].
  apply (retyping_displayed_value in_duration data); [auto| |reflexivity].
  split; [simpl; unfold MAX_SAFE_INTEGER; lia|].
  intros months [= <-]. unfold MAX_SAFE_INTEGER. lia.
Defined.

Section ContractCardFacts.

Lemma card_body_duration contract data node :
  Contract.extracted_data contract = Some data →
  (∃ n, node = card_duration n) ∨ node = card_text "0" →
  In node (ContractCard_body contract)
  ↔ In node (card_duration_slot (ExtractedData.contract_duration_months data)).
Proof.
  intros Hdata Hnode. unfold ContractCard_body. rewrite Hdata.
  rewrite !in_app_iff. unfold card_jurisdiction_slot.
  split; [|tauto].
  intros [[Hj|[Hd|Hr]]|Hi]; [|exact Hd| |].
  - destruct (truthy _); [|destruct Hj].
    destruct Hj as [<-|[]]. destruct Hnode as [[n Hn]|Hn]; discriminate Hn.
  - destruct Hr as [<-|[]]. destruct Hnode as [[n Hn]|Hn]; discriminate Hn.
  - destruct (Nat.ltb _ _); [|destruct Hi].
    destruct Hi as [<-|[]]. destruct Hnode as [[n Hn]|Hn]; discriminate Hn.
Qed.

End ContractCardFacts.

(** X7.  A duration submitted from the form shows on the contract's card
    as a duration line exactly when the typed text parses to a nonzero
    number.  When the text was empty, not a number or zero, the submitted
    duration is 0 and the card shows a bare "0" in place of the duration
    line. *)
Theorem cleared_duration_shows_bare_zero
    (value : string) (formData final : ExtractedData.t)
    (later : list UserEvent) (cb : Callback) (contract : Contract.t) :
  forallb (λ e, negb (is_duration_edit e)) later = true →
  AuditForm_run false (Change in_duration value :: later) formData
  = (final, Some cb) →
  Contract.extracted_data contract = Some (callback_data cb) →
  let body := ContractCard_body contract in
  (parseInt value = NaN ∨ parseInt value = Num 0 →
   In (card_text "0") body ∧ ∀ n, ¬ In (card_duration n) body)
  ∧ (∀ n, parseInt value = Num n → n ≠ 0%Z →
          In (card_duration n) body ∧ ¬ In (card_text "0") body).
Proof.
  intros Hlater Hrun Hdata body. subst body.
  pose proof (submitted_duration _ _ _ _ _ Hlater Hrun) as Hmonths.
  split.
  - intros Hzero.
    assert (Hjs : js_or (parseInt value) 0 = 0%Z)
      by (destruct Hzero as [-> | ->]; reflexivity).
    rewrite Hjs in Hmonths. split.
    + apply (card_body_duration contract _ _ Hdata); [auto|].
      rewrite Hmonths. left. reflexivity.
    + intros n Hin.
      apply (card_body_duration contract _ _ Hdata) in Hin; [|eauto].
      rewrite Hmonths in Hin. destruct Hin as [Hin|[]]. discriminate Hin.
  - intros n Hn Hnz. rewrite Hn, js_or_zero_id in Hmonths.
    assert (Hslot : card_duration_slot (Some n) = [card_duration n]).
    { simpl. destruct (Z.eqb_spec n 0); congruence. }
    split.
    + apply (card_body_duration contract _ _ Hdata); [eauto|].
      rewrite Hmonths, Hslot. left. reflexivity.
    + intros Hin.
      apply (card_body_duration contract _ _ Hdata) in Hin; [|auto].
      rewrite Hmonths, Hslot in Hin. destruct Hin as [Hin|[]]. discriminate Hin.
Qed.

Lemma cleared_duration_shows_bare_zero_witness :
  let data := sample_data 12 "Chile" 30 in
  ∃ final cb,
    AuditForm_run false [Change in_duration EmptyString; Click btn_save] data
    = (final, Some cb)
    ∧ In (card_text "0")
        (ContractCard_body
           (Contract.mk "c-1" "contract.pdf" requires_human_review
              "2024-01-01T00:00:00Z" None (Some (callback_data cb)) [] false []
              (Some 1%Q) false)).
Proof.
  intros data. eexists _, _. split; [reflexivity|].
  match goal with
  | |- In _ (ContractCard_body ?c) =>
      match c with
      | context [callback_data ?cb] =>
          exact (proj1 (proj1 (cleared_duration_shows_bare_zero EmptyString data
                                 (callback_data cb) [Click btn_save] cb c
                                 eq_refl eq_refl eq_refl)
                          (or_introl eq_refl)))
      end
  end.
Defined.

Section ContractDetailRuns.

Implicit Types (s : DetailState.t) (id : option string).

(** A page whose view accepts no event is not changed by any run. *)
Lemma frozen_run id s :
  (∀ w, In w (view_widgets (ContractDetail_render s)) →
        ∃ target, w = Input target true) →
  ∀ events, ContractDetail_run id events s = (s, []).
Proof.
  intros Hview. induction events as [|e rest IH]; [reflexivity|].
  cbn [ContractDetail_run]. unfold ContractDetail_step.
  rewrite (disabled_view_accepts_nothing _ e Hview), IH. reflexivity.
Qed.

Lemma saving_view_widgets s w :
  DetailState.saving s = true →
  In w (view_widgets (ContractDetail_render s)) →
  ∃ target, w = Input target true.
Proof.
  intros Hsaving. unfold ContractDetail_render.
  destruct (DetailState.loading s); [intros []|].
  destruct (DetailState.contract s) as [c|]; [|intros []].
  destruct (truthy (DetailState.error s)); [intros []|].
  rewrite Hsaving. cbn [orb view_widgets].
  destruct (Contract.extracted_data c); [|intros []].
  destruct (DetailState.formData s) as [formData|]; [|intros []].
  apply disabled_form_widgets.
Qed.

Lemma truthy_Some id : truthy id = true → ∃ i, id = Some i ∧ i ≠ EmptyString.
Proof.
  destruct id as [i|]; [|discriminate]. simpl. intros Hi. exists i.
  split; [reflexivity|]. intros ->. discriminate Hi.
Qed.

(** One event sends nothing, or sends one update for the route id and
    leaves the page saving. *)
Lemma step_calls id e s s1 calls1 :
  ContractDetail_step id e s = (s1, calls1) →
  calls1 = []
  ∨ ∃ i data flag,
      id = Some i ∧ i ≠ EmptyString
      ∧ calls1 = [contractsApi_update i data flag None]
      ∧ DetailState.saving s1 = true.
Proof.
  unfold ContractDetail_step.
  destruct (enabled _ e); [|intros [= <- <-]; auto].
  destruct (DetailState.formData s) as [formData|]; [|intros [= <- <-]; auto].
  destruct e as [target value|[]]; cbn [AuditForm_handle].
  - intros [= <- <-]. auto.
  - unfold handleSave. destruct (truthy id) eqn:Hid; [|intros [= <- <-]; auto].
    apply truthy_Some in Hid as (i & -> & Hi). intros [= <- <-].
    right. exists i, formData, false. auto.
  - unfold handleApprove. destruct (truthy id) eqn:Hid; [|intros [= <- <-]; auto].
    apply truthy_Some in Hid as (i & -> & Hi). intros [= <- <-].
    right. exists i, formData, true. auto.
Qed.

Lemma ready_widgets s formData :
  page_ready s formData →
  view_widgets (ContractDetail_render s) = AuditForm_render formData false.
Proof.
  intros (Hloading & Herror & Hsaving & Hform & c & data & Hc & Hdata & Happroved).
  unfold ContractDetail_render.
  rewrite Hloading, Hc, Herror, Hdata, Hform, Hsaving, Happroved. reflexivity.
Qed.

Lemma button_enabled formData b :
  enabled (AuditForm_render formData false) (Click b) = true.
Proof.
  unfold AuditForm_render. rewrite !enabled_app.
  destruct b; simpl; rewrite ?orb_true_r; reflexivity.
Qed.

Lemma scalar_edit_enabled formData e :
  is_scalar_edit e = true → enabled (AuditForm_render formData false) e = true.
Proof.
  destruct e as [[index f| | | |] value|b]; try discriminate; intros _;
    apply scalar_input_enabled; discriminate.
Qed.

End ContractDetailRuns.

(** X8.  Whatever the user does on the contract-detail page between two
    server responses, each event acting on the page as rendered after the
    previous one, at most one update request is sent: it goes to the
    contract of the route, carries no reviewer notes, and leaves the page
    in its saving state; without a route id none is sent at all. *)
Theorem at_most_one_request
    (id : option string) (events : list UserEvent)
    (s s' : DetailState.t) (calls : list ApiCall) :
  ContractDetail_run id events s = (s', calls) →
  calls = []
  ∨ ∃ i data flag,
      id = Some i ∧ i ≠ EmptyString
      ∧ calls = [contractsApi_update i data flag None]
      ∧ DetailState.saving s' = true.
Proof.
  revert s s' calls. induction events as [|e rest IH]; intros s s' calls.
  - intros [= <- <-]. auto.
  - cbn [ContractDetail_run].
    destruct (ContractDetail_step id e s) as [s1 calls1] eqn:Hstep.
    destruct (step_calls id e s s1 calls1 Hstep)
      as [-> | (i & data & flag & -> & Hi & -> & Hsaving)].
    + destruct (ContractDetail_run id rest s1) as [s2 calls2] eqn:Hrest.
      intros [= <- <-]. exact (IH s1 s2 calls2 Hrest).
    + rewrite (frozen_run (Some i) s1)
        by (intros w; apply saving_view_widgets, Hsaving).
      intros [= <- <-]. right. exists i, data, flag. auto.
Qed.

Lemma at_most_one_request_witness :
  let c := sample_contract "c-1" requires_human_review true false in
  let s := DetailState.mk (Some c) false None false None (Contract.extracted_data c) in
  ∃ s' data flag,
    ContractDetail_run (Some "c-1")
      [Click btn_save; Change in_risk_score "90"; Click btn_approve; Click btn_save] s
    = (s', [contractsApi_update "c-1" data flag None]).
Proof.
  intros c s.
  destruct (ContractDetail_run (Some "c-1")
              [Click btn_save; Change in_risk_score "90"; Click btn_approve;
               Click btn_save] s) as [s' calls] eqn:Hrun.
  destruct (at_most_one_request _ _ _ _ _ Hrun)
    as [-> | (i & data & flag & [= <-] & _ & -> & _)].
  - discriminate Hrun.
  - exists s', data, flag. reflexivity.
Defined.

(** X9.  Without a route id the page requests no contract and stays on
    its loading screen: no user event changes it or sends a request. *)
Theorem no_route_id_stays_loading (id : option string) :
  truthy id = false →
  fetchContract id = []
  ∧ ContractDetail_render ContractDetail_initial = view_loading
  ∧ ∀ events,
      ContractDetail_run id events ContractDetail_initial
      = (ContractDetail_initial, []).
Proof.
  intros Hid. unfold fetchContract. rewrite Hid.
  repeat split. apply frozen_run. intros w [].
Qed.

Lemma no_route_id_stays_loading_witness :
  fetchContract None = []
  ∧ ContractDetail_run None [Click btn_save] ContractDetail_initial
    = (ContractDetail_initial, []).
Proof.
  destruct (no_route_id_stays_loading None eq_refl) as (Hfetch & _ & Hrun).
  split; [exact Hfetch|apply Hrun].
Defined.

(** X10.  On a page showing an enabled form, a series of edits of the
    scalar fields followed by Save or Approve sends exactly one update:
    for the contract of the route, with the form data after all the edits,
    applied in order, with [human_approved] false for Save and true for
    Approve, and without reviewer notes. *)
Theorem request_carries_the_edits
    (i : string) (s : DetailState.t) (formData : ExtractedData.t)
    (edits : list UserEvent) (b : FormButton) :
  i ≠ EmptyString →
  page_ready s formData →
  forallb is_scalar_edit edits = true →
  (ContractDetail_run (Some i) (edits ++ [Click b]) s).2
  = [contractsApi_update i (apply_edits edits formData) (button_flag b) None].
Proof.
  intros Hi. revert s formData.
  assert (Hid : truthy (Some i) = true).
  { simpl. destruct (String.eqb_spec i EmptyString); [contradiction|reflexivity]. }
  induction edits as [|e edits IH]; intros s formData Hready Hedits.
  - cbn [app ContractDetail_run]. unfold ContractDetail_step.
    rewrite (ready_widgets s formData Hready), button_enabled.
    destruct Hready as (_ & _ & _ & -> & _).
    destruct b; cbn [AuditForm_handle]; unfold handleSave, handleApprove;
      rewrite Hid; reflexivity.
  - cbn [forallb] in Hedits. apply andb_true_iff in Hedits as [He Hedits].
    cbn [app ContractDetail_run]. unfold ContractDetail_step.
    rewrite (ready_widgets s formData Hready), (scalar_edit_enabled _ e He).
    pose proof Hready as (Hloading & Herror & Hsaving & Hform & Hcontract).
    rewrite Hform.
    destruct e as [target value|b']; [|discriminate He].
    cbn [AuditForm_handle].
    match goal with
    | |- context [ContractDetail_run _ _ ?s1] =>
        specialize (IH s1 (input_onChange target value formData))
    end.
    destruct (ContractDetail_run _ _ _) as [s2 calls2].
    cbn [snd app] in *. apply IH; [|exact Hedits].
    repeat split; assumption.
Qed.

Lemma request_carries_the_edits_witness :
  let c := sample_contract "c-1" requires_human_review true false in
  let s := DetailState.mk (Some c) false None false None (Contract.extracted_data c) in
  (ContractDetail_run (Some "c-1")
     [Change in_risk_score "20"; Change in_jurisdiction "Peru"; Click btn_approve] s).2
  = [contractsApi_update "c-1" (sample_data 12 "Peru" 20) true None].
Proof.
  intros c s.
  apply (request_carries_the_edits "c-1" s (sample_data 12 "Chile" 30)
           [Change in_risk_score "20"; Change in_jurisdiction "Peru"] btn_approve).
  - discriminate.
  - repeat split. exists c, (sample_data 12 "Chile" 30). repeat split.
  - reflexivity.
Defined.

(** X11.  After an update request is rejected with a non-empty error
    message, or with something that is not an error object, the page
    leaves its saving state and holds a message in [error]; from then on
    it renders no form, and no user event changes it or sends another
    request. *)
Theorem rejected_update_locks_the_page
    (id : option string) (b : FormButton) (err : option string)
    (s : DetailState.t) :
  err ≠ Some EmptyString →
  let s' := update_settled b (inl err) s in
  truthy (DetailState.error s') = true
  ∧ DetailState.saving s' = false
  ∧ view_widgets (ContractDetail_render s') = []
  ∧ ∀ events, ContractDetail_run id events s' = (s', []).
Proof.
  intros Herr s'. subst s'.
  assert (Htruthy : truthy (DetailState.error (update_settled b (inl err) s)) = true).
  { destruct err as [text|], b; simpl; try reflexivity;
      destruct (String.eqb_spec text EmptyString); congruence || reflexivity. }
  assert (Hview : view_widgets
                    (ContractDetail_render (update_settled b (inl err) s)) = []).
  { unfold ContractDetail_render. rewrite Htruthy.
    destruct (DetailState.loading _); [reflexivity|].
    destruct (DetailState.contract _); reflexivity. }
  repeat split; try assumption.
  apply frozen_run. rewrite Hview. intros w [].
Qed.

Lemma rejected_update_locks_the_page_witness :
  let c := sample_contract "c-1" requires_human_review true false in
  let s := DetailState.mk (Some c) false None true None (Contract.extracted_data c) in
  let s' := update_settled btn_save (inl (Some "Network Error")) s in
  ContractDetail_run (Some "c-1") [Change in_risk_score "20"; Click btn_save] s'
  = (s', []).
Proof.
  intros c s s'.
  apply (rejected_update_locks_the_page (Some "c-1") btn_save
           (Some "Network Error") s).
  discriminate.
Defined.

(** X12.  When an update request succeeds on a page that shows no error,
    the page takes the returned contract, leaves its saving state, and
    its form holds the extracted data of that contract; the form is
    enabled again exactly when the returned contract is not approved by a
    human. *)
Theorem resolved_update_shows_server_data
    (b : FormButton) (updated : Contract.t) (data : ExtractedData.t)
    (s : DetailState.t) :
  DetailState.loading s = false →
  truthy (DetailState.error s) = false →
  Contract.extracted_data updated = Some data →
  let s' := update_settled b (inr updated) s in
  DetailState.contract s' = Some updated
  ∧ DetailState.saving s' = false
  ∧ DetailState.formData s' = Some data
  ∧ view_widgets (ContractDetail_render s')
    = AuditForm_render data (Contract.human_approved updated).
Proof.
  intros Hloading Herror Hdata s'. subst s'.
  cbn [update_settled DetailState.contract DetailState.saving
       DetailState.formData].
  repeat split; [exact Hdata|].
  unfold ContractDetail_render.
  cbn [DetailState.loading DetailState.contract DetailState.error
       DetailState.saving DetailState.formData].
  rewrite Hloading, Herror, Hdata. reflexivity.
Qed.

Lemma resolved_update_shows_server_data_witness :
  let c := sample_contract "c-1" requires_human_review true false in
  let s := DetailState.mk (Some c) false None true None (Contract.extracted_data c) in
  let updated := sample_contract "c-1" approved false true in
  view_widgets (ContractDetail_render (update_settled btn_approve (inr updated) s))
  = AuditForm_render (sample_data 12 "Chile" 30) true.
Proof.
  intros c s updated.
  exact (proj2 (proj2 (proj2
           (resolved_update_shows_server_data btn_approve updated
              (sample_data 12 "Chile" 30) s eq_refl eq_refl eq_refl)))).
Defined.

Section DashboardListFacts.




End DashboardListFacts.


(** X14.  In the stats bar each of the four numbers is at most the number
    of fetched contracts, the approved, processing and rejected numbers
    together are at most that number, and all four together at most twice
    that number. *)
Theorem dashboard_stats_bounds (contracts : list Contract.t) :
  let '(review, accepted, running, refused) := Dashboard.stats contracts in
  (review ≤ length contracts
   ∧ accepted + running + refused ≤ length contracts
   ∧ review + accepted + running + refused ≤ 2 * length contracts)%nat.
Proof.
  unfold Dashboard.stats, Dashboard.needsReview, Dashboard.approved,
    Dashboard.processing, Dashboard.rejected.
  induction contracts as [|c rest IH]; [simpl; lia|].
  cbn [List.filter length].
  destruct (Contract.requires_human_review c), (Contract.status c);
    cbn [status_eqb status_string String.eqb Ascii.eqb Bool.eqb length];
    simpl; lia.
Qed.


Section UploadFacts.

Lemma string_length_append a b :
  String.length (String.append a b) = String.length a + String.length b.
Proof. induction a as [|c a IH]; simpl; [reflexivity|]. rewrite IH. reflexivity. Qed.

Lemma toLowerCase_append a b :
  toLowerCase (String.append a b) = String.append (toLowerCase a) (toLowerCase b).
Proof. induction a as [|c a IH]; simpl; [reflexivity|]. rewrite IH. reflexivity. Qed.

Lemma toLowerCase_length a : String.length (toLowerCase a) = String.length a.
Proof. induction a as [|c a IH]; simpl; [reflexivity|]. rewrite IH. reflexivity. Qed.

Lemma substring_all b : substring 0 (String.length b) b = b.
Proof. induction b as [|c b IH]; simpl; [reflexivity|]. rewrite IH. reflexivity. Qed.

Lemma substring_suffix a b :
  substring (String.length a) (String.length b) (String.append a b) = b.
Proof. induction a as [|c a IH]; simpl; [apply substring_all|exact IH]. Qed.

Lemma endsWith_append a b : endsWith (String.append a b) b = true.
Proof.
  unfold endsWith. rewrite string_length_append.
  replace (String.length a + String.length b - String.length b)
    with (String.length a) by lia.
  rewrite substring_suffix, String.eqb_refl, andb_true_r.
  apply Nat.leb_le. lia.
Qed.

Lemma endsWith_short s suffix :
  String.length s < String.length suffix → endsWith s suffix = false.
Proof.
  intros Hshort. unfold endsWith.
  destruct (Nat.leb_spec (String.length suffix) (String.length s)); [lia|].
  reflexivity.
Qed.

End UploadFacts.

(** X16.  The upload handler accepts a file whenever its name ends with
    the extension [.pdf] in any mix of upper and lower case, whatever
    precedes it: the page enters its uploading state, clears the error and
    posts that file.  A name shorter than four characters is always
    refused: nothing is posted, the error asks for a PDF file, and the
    rest of the state is untouched. *)
Theorem upload_accepts_pdf_extension
    (base ext : string) (content : list Byte.byte) (s : DashboardState.t) :
  toLowerCase ext = ".pdf" →
  let file := File.mk (String.append base ext) content in
  handleFileUpload (Some file) s
  = (DashboardState.mk (DashboardState.contracts s) (DashboardState.loading s)
       None true "Uploading and analyzing contract...", Some file)
  ∧ ∀ short,
      String.length (File.name short) < 4 →
      handleFileUpload (Some short) s
      = (DashboardState.mk (DashboardState.contracts s) (DashboardState.loading s)
           (Some "Please upload a PDF file") (DashboardState.uploading s)
           (DashboardState.uploadProgress s), None).
Proof.
  intros Hext file. subst file. unfold handleFileUpload. split.
  - cbn [File.name]. rewrite toLowerCase_append, Hext, endsWith_append.
    reflexivity.
  - intros short Hshort. rewrite endsWith_short; [reflexivity|].
    rewrite toLowerCase_length. exact Hshort.
Qed.

Lemma upload_accepts_pdf_extension_witness :
  let s := DashboardState.mk [] false (Some "Please upload a PDF file") false
             EmptyString in
  (handleFileUpload (Some (File.mk "Lease 2024.PDF" [])) s).2
  = Some (File.mk "Lease 2024.PDF" [])
  ∧ (handleFileUpload (Some (File.mk "pdf" [])) s).2 = None.
Proof.
  intros s.
  destruct (upload_accepts_pdf_extension "Lease 2024" ".PDF" [] s eq_refl)
    as [Haccept Hrefuse].
  split.
  - change (File.mk "Lease 2024.PDF" [])
      with (File.mk (String.append "Lease 2024" ".PDF") []).
    rewrite Haccept. reflexivity.
  - rewrite (Hrefuse (File.mk "pdf" [])); [reflexivity|simpl; lia].
Defined.

Section PDFViewerFacts.

Implicit Types (s : PDFViewerState.t) (e : ViewerEvent).

Lemma navigation_step_in_range e s :
  is_navigation e = true →
  page_in_range s →
  PDFViewerState.numPages (PDFViewer_step e s) = PDFViewerState.numPages s
  ∧ page_in_range (PDFViewer_step e s).
Proof.
  unfold page_in_range, PDFViewer_step, goToPrevPage, goToNextPage.
  intros Hnav Hrange.
  destruct s as [pages page loading mode];
    cbn [PDFViewerState.numPages PDFViewerState.currentPage
         PDFViewerState.loading PDFViewerState.viewMode] in *.
  destruct mode, e; try discriminate Hnav;
    cbn [PDFViewerState.numPages PDFViewerState.currentPage]; try (split; [reflexivity|lia]).
  - destruct (Z.leb_spec page 1); cbn; split; try reflexivity; lia.
  - destruct (Z.leb_spec pages page); cbn; split; try reflexivity; lia.
  - destruct (0 <? pages)%Z; [|cbn; split; [reflexivity|lia]].
    destruct (parseInt value) as [|target]; [cbn; split; [reflexivity|lia]|].
    destruct ((1 <=? target) && (target <=? pages))%Z eqn:Hb;
      cbn; (split; [reflexivity|]); [|lia].
    apply andb_true_iff in Hb as [H1 H2]. apply Z.leb_le in H1, H2. lia.
Qed.

End PDFViewerFacts.

(** X17.  Once a document with at least one page is loaded and the current
    page is one of its pages, no sequence of clicks on the previous and
    next buttons, entries in the page input and switches between the PDF
    and the text view takes the current page out of the document; the
    number of pages is left as it is. *)
Theorem page_navigation_stays_in_range
    (events : list ViewerEvent) (s : PDFViewerState.t) :
  forallb is_navigation events = true →
  page_in_range s →
  PDFViewerState.numPages (PDFViewer_run events s) = PDFViewerState.numPages s
  ∧ page_in_range (PDFViewer_run events s).
Proof.
  unfold PDFViewer_run. revert s.
  induction events as [|e rest IH]; intros s Hnav Hrange; [split; auto|].
  cbn [forallb] in Hnav. apply andb_true_iff in Hnav as [He Hrest].
  destruct (navigation_step_in_range e s He Hrange) as [Hpages Hstep].
  cbn [fold_left]. destruct (IH _ Hrest Hstep) as [Hpages' Hrange'].
  split; [congruence|exact Hrange'].
Qed.

Lemma page_navigation_stays_in_range_witness :
  let loaded := PDFViewer_step (ev_load_success 3) PDFViewer_initial in
  page_in_range
    (PDFViewer_run [ev_next; ev_next; ev_next; ev_next; ev_page_input "7"; ev_prev]
       loaded).
Proof.
  intros loaded.
  apply (page_navigation_stays_in_range
           [ev_next; ev_next; ev_next; ev_next; ev_page_input "7"; ev_prev] loaded);
    [reflexivity|].
  unfold page_in_range. simpl. lia.
Defined.

(** X18.  In the PDF view, going to the next page and back, or to the
    previous page and forth, returns to the same viewer state whenever the
    first move is possible; on the first page the previous button and on
    the last page the next button change nothing. *)
Theorem prev_and_next_are_inverse (s : PDFViewerState.t) :
  PDFViewerState.viewMode s = mode_pdf →
  page_in_range s →
  ((PDFViewerState.currentPage s < PDFViewerState.numPages s)%Z →
   PDFViewer_step ev_prev (PDFViewer_step ev_next s) = s)
  ∧ ((1 < PDFViewerState.currentPage s)%Z →
     PDFViewer_step ev_next (PDFViewer_step ev_prev s) = s)
  ∧ (PDFViewerState.currentPage s = 1%Z → PDFViewer_step ev_prev s = s)
  ∧ (PDFViewerState.currentPage s = PDFViewerState.numPages s →
     PDFViewer_step ev_next s = s).
Proof.
  unfold page_in_range, PDFViewer_step, goToPrevPage, goToNextPage.
  destruct s as [pages page loading mode];
    cbn [PDFViewerState.numPages PDFViewerState.currentPage
         PDFViewerState.loading PDFViewerState.viewMode].
  intros -> Hrange. repeat apply conj.
  - intros Hlt. destruct (Z.leb_spec pages page); [lia|].
    cbn [PDFViewerState.numPages PDFViewerState.currentPage
         PDFViewerState.loading PDFViewerState.viewMode].
    destruct (Z.leb_spec (Z.min (page + 1) pages) 1); [lia|].
    f_equal. lia.
  - intros Hgt. destruct (Z.leb_spec page 1); [lia|].
    cbn [PDFViewerState.numPages PDFViewerState.currentPage
         PDFViewerState.loading PDFViewerState.viewMode].
    destruct (Z.leb_spec pages (Z.max (page - 1) 1)); [lia|].
    f_equal. lia.
  - intros ->. reflexivity.
  - intros ->. rewrite Z.leb_refl. reflexivity.
Qed.

Lemma prev_and_next_are_inverse_witness :
  let s := PDFViewerState.mk 5 2 false mode_pdf in
  PDFViewer_step ev_prev (PDFViewer_step ev_next s) = s
  ∧ PDFViewer_step ev_next (PDFViewer_step ev_prev s) = s.
Proof.
  intros s.
  destruct (prev_and_next_are_inverse s eq_refl) as (Hnext & Hprev & _).
  - unfold page_in_range. simpl. lia.
  - split; [apply Hnext|apply Hprev]; simpl; lia.
Defined.

(** X19.  In the PDF view of a loaded document, an entry in the page input
    that [parseInt] reads as the number of one of its pages makes that page
    the current one; the decimal digits of a page number do so for every
    page number that is a safe integer (beyond [2^53] an entry is rounded
    as any number is).  An entry that is not a number, or is the number of
    no page, is ignored. *)
Theorem page_input_goes_to_page
    (s : PDFViewerState.t) (page : Z) (value : string) :
  PDFViewerState.viewMode s = mode_pdf →
  (1 ≤ page ≤ PDFViewerState.numPages s)%Z →
  (parseInt value = Num page →
   PDFViewerState.currentPage (PDFViewer_step (ev_page_input value) s) = page)
  ∧ ((page ≤ MAX_SAFE_INTEGER)%Z →
     PDFViewerState.currentPage
       (PDFViewer_step (ev_page_input (js_number_to_string page)) s) = page)
  ∧ (parseInt value = NaN
     ∨ (∃ n, parseInt value = Num n
             ∧ (n < 1 ∨ PDFViewerState.numPages s < n)%Z) →
     PDFViewer_step (ev_page_input value) s = s).
Proof.
  intros Hmode Hpage.
  assert (Hgo : ∀ text, parseInt text = Num page →
            PDFViewerState.currentPage (PDFViewer_step (ev_page_input text) s)
            = page).
  { intros text Htext. unfold PDFViewer_step. rewrite Hmode, Htext.
    destruct (Z.ltb_spec 0 (PDFViewerState.numPages s)); [|lia].
    destruct (Z.leb_spec 1 page); [|lia].
    destruct (Z.leb_spec page (PDFViewerState.numPages s)); [|lia].
    reflexivity. }
  repeat apply conj.
  - apply Hgo.
  - intros Hsafe. apply Hgo, parseInt_js_number_to_string. lia.
  - unfold PDFViewer_step. rewrite Hmode. intros [-> | (n & -> & Hout)].
    + destruct (0 <? _)%Z; reflexivity.
    + destruct (0 <? _)%Z; [|reflexivity].
      destruct (Z.leb_spec 1 n), (Z.leb_spec n (PDFViewerState.numPages s));
        try reflexivity; lia.
Qed.

Lemma page_input_goes_to_page_witness :
  let s := PDFViewerState.mk 5 2 false mode_pdf in
  PDFViewerState.currentPage (PDFViewer_step (ev_page_input "4") s) = 4%Z
  ∧ PDFViewer_step (ev_page_input "9") s = s.
Proof.
  intros s.
  destruct (page_input_goes_to_page s 4 "9" eq_refl) as (_ & Hgo & Hignore).
  - simpl. lia.
  - split; [apply Hgo; unfold MAX_SAFE_INTEGER; lia|].
    apply Hignore. right. exists 9%Z. split; [reflexivity|simpl; lia].
Defined.
